(** * react-storefront [Image.js]: the image URL optimizer and the load state
    machine of the [Image] component.

    The development embeds [src/packages/react-storefront/src/Image.js]:
    [createOptimizedSrc] (lines 88-99) over a small model of JavaScript values
    and of a heap of plain objects, and the component's [constructor],
    [componentDidMount], [handleNotFound], [lazyLoad], [getOptimizedSrc],
    [ampLayout] and [render] (lines 178-306). *)

From Stdlib Require Import ZArith String Ascii List Lia.
From stdpp Require Import base gmap strings list pretty.

Local Open Scope string_scope.

(** ** JavaScript values and plain objects *)

Module JS.

(** Objects live in a heap and are handled through references, so that two
    names for one object (the caller's and the callee's) see the same
    updates. *)
Definition loc := positive.

(** Numbers are restricted to integers (no NaN, no fractions): the embedded
    code only copies numbers and tests them for truthiness.  Strings are byte
    strings. *)
Inductive value :=
| VUndefined
| VNull
| VBool (b : bool)
| VNum (n : Z)
| VStr (s : string)
| VRef (l : loc).

#[global] Instance value_eq_dec : EqDecision value.
Proof. solve_decision. Defined.

(** A plain object: its own enumerable string-keyed data properties, in
    insertion order (the order of [Object.keys] for keys that are not array
    indices). *)
Definition object := list (string * value).

Abbreviation heap := (gmap loc object).

(** ToBoolean. *)
Definition truthy (v : value) : bool :=
  match v with
  | VUndefined | VNull => false
  | VBool b => b
  | VNum n => negb (n =? 0)%Z
  | VStr s => negb (bool_decide (s = EmptyString))
  | VRef _ => true
  end.

(** [a || b] and [a && b] return one of their operands. *)
Definition js_or (a b : value) : value := if truthy a then a else b.
Definition js_and (a b : value) : value := if truthy a then b else a.
Definition js_not (a : value) : value := VBool (negb (truthy a)).

(** [v == null] (loose equality with null): true of null and undefined only. *)
Definition nullish (v : value) : bool :=
  match v with
  | VUndefined | VNull => true
  | _ => false
  end.

(** [o[k]] on the own properties; a missing key reads as undefined (no
    prototype of a plain object defines the keys read in this file). *)
Fixpoint get_own (o : object) (k : string) : value :=
  match o with
  | [] => VUndefined
  | (k', v) :: o' => if bool_decide (k' = k) then v else get_own o' k
  end.

Definition has_own (o : object) (k : string) : bool :=
  bool_decide (k ∈ o.*1).

(** [o[k] = v]: an existing key keeps its position, a new key goes last. *)
Fixpoint set_prop (k : string) (v : value) (o : object) : object :=
  match o with
  | [] => [(k, v)]
  | (k', v') :: o' =>
      if bool_decide (k' = k) then (k, v) :: o' else (k', v') :: set_prop k v o'
  end.

(** Copying every own property of [source] onto [target], in order: what
    object spread and [Object.assign] do. *)
Definition assign (target source : object) : object :=
  fold_left (fun acc kv => set_prop kv.1 kv.2 acc) source target.

(** The own enumerable properties a value exposes to spread and to
    [Object.keys]: those of the object for a reference, the indexed
    characters for a string, none for the other primitives. *)
Fixpoint string_props (i : nat) (s : string) : object :=
  match s with
  | EmptyString => []
  | String c s' => (pretty i, VStr (String c EmptyString)) :: string_props (S i) s'
  end.

(** ** Completions and the heap monad *)

Inductive error :=
| TypeError
| ReferenceError
| DanglingRef.   (* not a JavaScript exception: a reference with no object
                    behind it, which a well-formed heap never has *)

Inductive completion (A : Type) :=
| Return (a : A)
| Throw (e : error).
Arguments Return {A} a.
Arguments Throw {A} e.

(** A computation reads and updates the heap and completes normally or
    abruptly; the heap updates made before a throw persist. *)
Definition M (A : Type) : Type := heap -> completion A * heap.

Definition ret {A} (a : A) : M A := fun h => (Return a, h).
Definition throw {A} (e : error) : M A := fun h => (Throw e, h).
Definition bind {A B} (m : M A) (k : A -> M B) : M B :=
  fun h =>
    match m h with
    | (Return a, h') => k a h'
    | (Throw e, h') => (Throw e, h')
    end.

Declare Scope js_scope.
Delimit Scope js_scope with js.
Notation "x <- m ;; k" := (bind m (fun x => k))
  (at level 100, m at next level, right associativity) : js_scope.
Notation "m ;;; k" := (bind m (fun _ => k))
  (at level 100, right associativity) : js_scope.
Local Open Scope js_scope.

(** An object literal allocates a fresh object. *)
Definition alloc (o : object) : M loc :=
  fun h => let l := fresh (dom h) in (Return l, <[l := o]> h).

Definition deref (l : loc) : M object :=
  fun h =>
    match h !! l with
    | Some o => (Return o, h)
    | None => (Throw DanglingRef, h)
    end.

Definition store (l : loc) (o : object) : M unit :=
  fun h => (Return tt, <[l := o]> h).

(** [v.k] *)
Definition get_member (v : value) (k : string) : M value :=
  match v with
  | VUndefined | VNull => throw TypeError
  | VRef l => o <- deref l ;; ret (get_own o k)
  | VBool _ | VNum _ | VStr _ => ret VUndefined
  end.

(** [v.k = x] in strict code (an ES module): writing a property on a
    primitive throws. *)
Definition set_member (v : value) (k : string) (x : value) : M unit :=
  match v with
  | VRef l => o <- deref l ;; store l (set_prop k x o)
  | _ => throw TypeError
  end.

(** The properties [{...v}] copies; spreading undefined or null copies
    nothing. *)
Definition own_props (v : value) : M object :=
  match v with
  | VRef l => deref l
  | VStr s => ret (string_props 0 s)
  | VUndefined | VNull | VBool _ | VNum _ => ret []
  end.

(** [Object.keys(v)] *)
Definition Object_keys (v : value) : M (list string) :=
  match v with
  | VUndefined | VNull => throw TypeError
  | _ => o <- own_props v ;; ret (o.*1)
  end.

(** [{ ...v, k1: x1, ... }]: a new object. *)
Definition object_spread (v : value) (rest : object) : M loc :=
  o <- own_props v ;; alloc (assign o rest).

End JS.
Import JS.
Local Open Scope js_scope.

(** ** The URL optimizer (lines 56-99) *)

Definition LEGACY_IMAGE_OPTIMIZER : string := "https://opt.moovweb.net".
Definition RESPONSIVE_IMAGE_OPTIMIZER : string := "https://optimize.moovweb.net/img".
Definition LOCAL_IMAGE_OPTIMIZER : string := "http://localhost:8090/img".

(** Line 94, inside the block of the [if] of line 93, reads

      [const options = { ...options, img: src }]

    The block declares its own [options], which shadows the parameter in the
    whole block, the initialiser included: the [options] under the spread is
    the binding being declared, never the parameter.  What reading it there
    does depends on how the block-scoped declaration is run:
    - [TDZ]: ECMAScript [let]/[const] semantics.  "The variables are created
      when their containing Environment Record is instantiated but may not
      be accessed in any way until the variable's LexicalBinding is
      evaluated": the read throws a ReferenceError.
    - [Hoisted]: the file cannot run as it is (decorators on lines 106-107,
      JSX on lines 244-264) and goes through a compiler.  A block-scoping
      transform that does not enforce the dead zone emits
      [var _options = _objectSpread({}, _options, { img: src })], a
      function-level variable that is still undefined when it is read.
    Under neither does the spread see the caller's options. *)
Inductive Scoping := TDZ | Hoisted.

(** What the module closes over: the scoping above, the imported
    [qs.stringify] (line 11; the library is not part of this file, so it is a
    parameter), and the module variable [optimizerUrlBase] (line 68). *)
Record Env := {
  scoping : Scoping;
  qs_stringify : object -> string;
  optimizerUrlBase : string
}.

Definition setImageOptimizer (url : string) (E : Env) : Env :=
  {| scoping := scoping E; qs_stringify := qs_stringify E; optimizerUrlBase := url |}.

(** Reading the block-scoped [options] of line 94 inside its initialiser. *)
Definition read_in_own_initializer (sc : Scoping) : M value :=
  match sc with
  | TDZ => throw ReferenceError
  | Hoisted => ret VUndefined
  end.

Definition createOptimizedSrc (E : Env) (src : value) (arg : value) : M value :=
  (* line 88: options = {} when the argument is undefined *)
  options <- match arg with
             | VUndefined => l <- alloc [] ;; ret (VRef l)
             | _ => ret arg
             end ;;
  (* line 91: if (options.format) options.fmt = options.format *)
  format <- get_member options "format" ;;
  (if truthy format then set_member options "fmt" format else ret tt) ;;;
  (* line 93: if (Object.keys(options).length > 0) *)
  ks <- Object_keys options ;;
  if bool_decide (0 < length ks) then
    (* line 94: const options = { ...options, img: src } *)
    inner <- read_in_own_initializer (scoping E) ;;
    q <- object_spread inner [("img", src)] ;;
    (* line 95: `${optimizerUrlBase}/?${qs.stringify(options)}` *)
    query <- deref q ;;
    ret (VStr (optimizerUrlBase E +:+ "/?" +:+ qs_stringify E query))
  else
    (* line 97 *)
    ret src.

(** ** A concrete serializer for worked examples *)

(** Modelled from the spec: the query-string serializer [qs.stringify], an
    imported library that is not under src/.  Spec 4.1: "standard URL-encoded
    key=value pairs joined by [&]", insertion order kept, all values scalars.
    A key whose value is undefined is left out and null serializes to the
    empty string, as the library does by default; nested objects are outside
    the model and are left out too. *)
Module Qs.

Definition in_range (lo hi : N) (c : ascii) : bool :=
  ((lo <=? N_of_ascii c) && (N_of_ascii c <=? hi))%N.

(** RFC 3986 unreserved characters are kept, every other byte is escaped. *)
Definition unreserved (c : ascii) : bool :=
  in_range 48 57 c || in_range 65 90 c || in_range 97 122 c
  || bool_decide (c ∈ ["-"; "."; "_"; "~"]%char).

Definition hex_digit (n : N) : ascii :=
  ascii_of_N (if (n <? 10)%N then 48 + n else 55 + n).

Fixpoint encode (s : string) : string :=
  match s with
  | EmptyString => EmptyString
  | String c s' =>
      if unreserved c then String c (encode s')
      else String "%" (String (hex_digit (N_of_ascii c / 16))
                         (String (hex_digit (N_of_ascii c mod 16)) (encode s')))
  end.

Definition scalar (v : value) : option string :=
  match v with
  | VUndefined | VRef _ => None
  | VNull => Some EmptyString
  | VBool b => Some (if b then "true" else "false")
  | VNum n => Some (pretty n)
  | VStr s => Some (encode s)
  end.

Definition pairs (o : object) : list string :=
  omap (fun kv => (fun s => encode kv.1 +:+ "=" +:+ s) <$> scalar kv.2) o.

Fixpoint join (sep : string) (l : list string) : string :=
  match l with
  | [] => EmptyString
  | [x] => x
  | x :: l' => x +:+ sep +:+ join sep l'
  end.

Definition stringify (o : object) : string := join "&" (pairs o).

End Qs.

(** The module as loaded: the default optimizer and the serializer above. *)
Definition module_env (sc : Scoping) : Env :=
  {| scoping := sc; qs_stringify := Qs.stringify;
     optimizerUrlBase := LEGACY_IMAGE_OPTIMIZER |}.

(** ** The component (lines 108-307) *)

Module Image.

(** The props [render] destructures (lines 198-215); [imgAttributes] is the
    rest, which by construction has none of the named keys ([src] among
    them).  A prop that is not passed and has no default is undefined.
    [classes], the style class names supplied by the theme, are fixed
    strings and appear below as the flags that select them. *)
Record Props := {
  lazy : value;
  lazyOffset : Z;
  notFoundSrc : value;
  height : value;
  width : value;
  quality : value;
  amp : value;
  fill : value;
  contain : value;
  className : value;
  aspectRatio : value;
  alt : value;
  src : value;
  optimize : value;
  imgAttributes : object
}.

(** [defaultProps] (lines 169-176) around a given [src]; [optimize] is the
    one object [{}] that every instance without the prop shares, here at
    [l]; [amp] is injected from the app state (line 107). *)
Definition defaultProps (l : loc) (s : value) : Props :=
  {| lazy := VBool false; lazyOffset := 100; notFoundSrc := VUndefined;
     height := VUndefined; width := VUndefined; quality := VNull;
     amp := VBool false; fill := VBool false; contain := VBool false;
     className := VUndefined; aspectRatio := VUndefined; alt := VUndefined;
     src := s; optimize := VRef l; imgAttributes := [] |}.

Record State := {
  loaded : value;
  primaryNotFound : value
}.

(** Lines 178-187. *)
Definition constructor (lazy amp : value) : State :=
  {| loaded := js_or (js_not lazy) amp; primaryNotFound := VBool false |}.

(** Lines 293-295; [setState] merges the given keys into the state (the
    deferred application of the update by React is not modelled: a handler
    maps the state before it to the state after it). *)
Definition handleNotFound (st : State) : State :=
  {| loaded := loaded st; primaryNotFound := VBool true |}.

(** Lines 297-301. *)
Definition lazyLoad (visible : value) (st : State) : State :=
  if truthy (js_and (js_not (loaded st)) visible)
  then {| loaded := VBool true; primaryNotFound := primaryNotFound st |}
  else st.

(** What [componentDidMount] reads of the DOM image behind [this.ref]. *)
Record HTMLImageElement := {
  complete : bool;
  naturalWidth : Z
}.

(** Lines 189-195; [this.ref.current] is null when no [<img>] was rendered. *)
Definition componentDidMount (img : option HTMLImageElement) (st : State) : State :=
  match img with
  | Some i => if complete i && (naturalWidth i =? 0)%Z then handleNotFound st else st
  | None => st
  end.

(** The three triggers of the state machine. *)
Inductive Event :=
| MountCheck (img : option HTMLImageElement)
| ErrorEvent
| VisibilityChange (visible : value).

Definition step (st : State) (e : Event) : State :=
  match e with
  | MountCheck img => componentDidMount img st
  | ErrorEvent => handleNotFound st
  | VisibilityChange visible => lazyLoad visible st
  end.

Definition run (st : State) (es : list Event) : State := fold_left step es st.

(** Lines 283-291; reads the props, not the local [contain] of [render]. *)
Definition ampLayout (p : Props) : string :=
  if truthy (js_or (js_or (contain p) (fill p)) (aspectRatio p))
  then "fill" else "intrinsic".

(** Lines 303-306. *)
Definition getOptimizedSrc (E : Env) (p : Props) : M value :=
  options <- object_spread (optimize p) [("quality", quality p)] ;;
  createOptimizedSrc E (src p) (VRef options).

(** The rendered tree, as far as [render] decides it.  A style class that
    [classnames] receives under a condition is a flag. *)
Record Attributes := {
  a_src : value;
  a_key : value;
  a_class_attribute : string;   (* 'class' in AMP, 'className' otherwise *)
  a_fit : bool;                 (* [classes.fit]: aspectRatio != null *)
  a_layout : value;
  a_height : value;
  a_width : value;
  a_alt : value;
  a_amp_bind : value
}.

Inductive Node :=
| Literal (v : value)          (* the left operand of a short-circuited && *)
| PaddingBox (ratio : value)   (* <div style={{ paddingTop: `${aspectRatio}%` }} /> *)
| AmpImg (a : Attributes)
| Img (a : Attributes) (rest : object).   (* rest: imgAttributes, spread after a *)

Record Container := {
  c_className : value;
  c_root : bool;
  c_contain : bool;
  c_fill : bool;
  c_children : list Node
}.

Inductive Element :=
| Div (c : Container)
| VisibilitySensor (active : value) (top bottom : Z) (child : Container).

Definition container_of (e : Element) : Container :=
  match e with
  | Div c => c
  | VisibilitySensor _ _ _ c => c
  end.

(** Lines 197-281; the result is [None] for [return null]. *)
Definition render (E : Env) (p : Props) (st : State) : M (option Element) :=
  (* line 217 *)
  if nullish (src p) then ret None else
  (* line 221 *)
  let contain' := js_or (contain p) (aspectRatio p) in
  (* line 224 *)
  optimized <- getOptimizedSrc E p ;;
  (* lines 226-228 *)
  let src' :=
    if truthy (js_and (primaryNotFound st) (notFoundSrc p))
    then notFoundSrc p else optimized in
  (* lines 230-241 *)
  let assignedAttributes :=
    {| a_src := src'; a_key := src';
       a_class_attribute := if truthy (amp p) then "class" else "className";
       a_fit := negb (nullish (aspectRatio p));
       a_layout := if truthy (amp p) then VStr (ampLayout p) else VNull;
       a_height := height p; a_width := width p; a_alt := alt p;
       a_amp_bind := get_own (imgAttributes p) "amp-bind" |} in
  (* lines 243-265 *)
  let result :=
    {| c_className := className p;
       c_root := true;
       c_contain := truthy contain';
       c_fill := truthy (fill p);
       c_children :=
         [ if truthy (aspectRatio p) then PaddingBox (aspectRatio p)
           else Literal (aspectRatio p);
           if truthy (amp p) then AmpImg assignedAttributes
           else if truthy (loaded st) then Img assignedAttributes (imgAttributes p)
           else Literal (loaded st) ] |} in
  (* lines 267-280 *)
  if truthy (js_and (js_not (amp p)) (lazy p))
  then ret (Some (VisibilitySensor (js_not (loaded st))
                    (- lazyOffset p) (- lazyOffset p) result))
  else ret (Some (Div result)).

(** The [src] attribute of the image element of a rendered tree, when the
    tree has one. *)
Definition image_src (e : Element) : option value :=
  match c_children (container_of e) with
  | [_; AmpImg a] | [_; Img a _] => Some (a_src a)
  | _ => None
  end.

End Image.
Import Image.

(** ** Derived definitions used in the statements *)

(** What line 91 leaves of an options object [o]. *)
Definition after_line_91 (o : object) : object :=
  if truthy (get_own o "format") then set_prop "fmt" (get_own o "format") o else o.

(** The heap after line 91 has run on the options object at [l]. *)
Definition heap_after_line_91 (h : heap) (l : loc) (o : object) : heap :=
  if truthy (get_own o "format") then <[l := after_line_91 o]> h else h.

(** [needle] occurs somewhere in [hay]. *)
Fixpoint contains (needle hay : string) : bool :=
  String.prefix needle hay ||
  match hay with
  | EmptyString => false
  | String _ hay' => contains needle hay'
  end.

(** An event that loads a pending image: a visibility change to visible. *)
Definition shows (e : Event) : bool :=
  match e with
  | VisibilityChange visible => truthy visible
  | _ => false
  end.

(** An event that reports the primary image as failed: an error event, or a
    mount check on a complete image of natural width 0. *)
Definition reports_failure (e : Event) : bool :=
  match e with
  | ErrorEvent => true
  | MountCheck (Some i) => complete i && (naturalWidth i =? 0)%Z
  | _ => false
  end.

(** Whether [render] puts the [<img>] of lines 256-261 in the tree: only that
    element carries [ref] and [onError]. *)
Definition img_in_tree (p : Props) (st : State) : bool :=
  negb (truthy (amp p)) && truthy (loaded st).

(** The events the rendered tree can deliver in state [st]: an error event
    and a mount check that finds an image need the [<img>]; a mount check
    that finds none needs its absence. *)
Definition deliverable (p : Props) (st : State) (e : Event) : bool :=
  match e with
  | ErrorEvent | MountCheck (Some _) => img_in_tree p st
  | MountCheck None => negb (img_in_tree p st)
  | VisibilityChange _ => true
  end.

Fixpoint deliverable_run (p : Props) (st : State) (es : list Event) : bool :=
  match es with
  | [] => true
  | e :: es' => deliverable p st e && deliverable_run p (step st e) es'
  end.

(** The props [p] with other [quality] and [optimize] props. *)
Definition with_options (q opt : value) (p : Props) : Props :=
  {| lazy := lazy p; lazyOffset := lazyOffset p; notFoundSrc := notFoundSrc p;
     height := height p; width := width p; quality := q; amp := amp p;
     fill := fill p; contain := contain p; className := className p;
     aspectRatio := aspectRatio p; alt := alt p; src := src p;
     optimize := opt; imgAttributes := imgAttributes p |}.

(** The two children of the rendered container. *)
Definition first_child (e : Element) : option Node := c_children (container_of e) !! 0.
Definition image_child (e : Element) : option Node := c_children (container_of e) !! 1.

(** ** Worked examples *)

Module Examples.

Definition l0 : loc := 1%positive.

(** [createOptimizedSrc("https://x/a.jpg", {quality: 80, width: 200})]. *)
Definition heap_quality_width : heap :=
  {[ l0 := [("quality", VNum 80); ("width", VNum 200)] ]}.

(** An options object [{format: "webp"}]. *)
Definition heap_format : heap := {[ l0 := [("format", VStr "webp")] ]}.

(** The shared default [optimize = {}]. *)
Definition heap_default : heap := {[ l0 := [] ]}.

(** [<Image src=... notFoundSrc=... aspectRatio=... />], every other prop at
    its default. *)
Definition image_props (s notFound ratio : value) : Props :=
  {| lazy := VBool false; lazyOffset := 100; notFoundSrc := notFound;
     height := VUndefined; width := VUndefined; quality := VNull;
     amp := VBool false; fill := VBool false; contain := VBool false;
     className := VUndefined; aspectRatio := ratio; alt := VUndefined;
     src := s; optimize := VRef l0; imgAttributes := [] |}.

(** The primary image has failed and the [<img>] is in the tree. *)
Definition state_not_found : State :=
  {| loaded := VBool true; primaryNotFound := VBool true |}.

Definition state_loaded : State := constructor (VBool false) (VBool false).

(** [<Image src=... fill=... />] in AMP mode, every other prop at its
    default. *)
Definition amp_image_props (s fill' : value) : Props :=
  {| lazy := VBool false; lazyOffset := 100; notFoundSrc := VUndefined;
     height := VUndefined; width := VUndefined; quality := VNull;
     amp := VBool true; fill := fill'; contain := VBool false;
     className := VUndefined; aspectRatio := VUndefined; alt := VUndefined;
     src := s; optimize := VRef l0; imgAttributes := [] |}.

End Examples.

(** ** Equations of the heap monad *)

Section MonadEquations.
Context {A B C : Type}.

Lemma bind_ret (a : A) (k : A -> M B) h : bind (ret a) k h = k a h.
Proof. reflexivity. Qed.

Lemma bind_throw e (k : A -> M B) h : bind (throw e) k h = (Throw e, h).
Proof. reflexivity. Qed.

Lemma bind_assoc (m : M A) (f : A -> M B) (g : B -> M C) h :
  bind (bind m f) g h = bind m (fun x => bind (f x) g) h.
Proof. unfold bind. destruct (m h) as [[a|e] h']; reflexivity. Qed.

Lemma bind_deref l o (k : object -> M B) (h : heap) :
  h !! l = Some o -> bind (deref l) k h = k o h.
Proof. intros Hl. unfold bind, deref. by rewrite Hl. Qed.

Lemma bind_store l o (k : unit -> M B) (h : heap) :
  bind (store l o) k h = k tt (<[l := o]> h).
Proof. reflexivity. Qed.

Lemma bind_alloc o (k : loc -> M B) (h : heap) :
  bind (alloc o) k h = k (fresh (dom h)) (<[fresh (dom h) := o]> h).
Proof. reflexivity. Qed.
End MonadEquations.

(** A fresh location holds no object yet. *)
Lemma fresh_lookup_None (h : heap) : h !! fresh (dom h) = None.
Proof. apply not_elem_of_dom, is_fresh. Qed.

Lemma fresh_ne (h : heap) l o : h !! l = Some o -> fresh (dom h) <> l.
Proof. intros Hl Heq. rewrite <- Heq, fresh_lookup_None in Hl. discriminate. Qed.

(** One step of symbolic execution in the heap monad. *)
Ltac js_step :=
  first
    [ rewrite bind_assoc
    | rewrite bind_ret
    | rewrite bind_throw
    | rewrite bind_store
    | rewrite bind_alloc
    | erewrite bind_deref by
        (first [ eassumption | apply lookup_insert_eq
               | rewrite lookup_insert_ne by (eauto using fresh_ne); eassumption ]) ].

(** ** The URL optimizer on an options object *)

Lemma set_prop_not_nil k v o : set_prop k v o <> [].
Proof. destruct o as [|[k' v'] o]; simpl; [|case_bool_decide]; discriminate. Qed.

Lemma after_line_91_nil o : after_line_91 o = [] <-> o = [].
Proof.
  unfold after_line_91. split.
  - destruct (truthy _); [|done]. intros H. by apply set_prop_not_nil in H.
  - by intros ->.
Qed.

Lemma get_own_set_prop_eq k v o : get_own (set_prop k v o) k = v.
Proof.
  induction o as [|[k' v'] o IH]; simpl.
  - by rewrite bool_decide_eq_true_2.
  - case_bool_decide; simpl.
    + by rewrite bool_decide_eq_true_2.
    + by rewrite bool_decide_eq_false_2.
Qed.

Lemma get_own_set_prop_ne k k' v o :
  k <> k' -> get_own (set_prop k v o) k' = get_own o k'.
Proof.
  intros Hne. induction o as [|[k0 v0] o IH]; simpl.
  - by rewrite bool_decide_eq_false_2.
  - case_bool_decide as Hk; simpl.
    + subst k0. by rewrite !bool_decide_eq_false_2.
    + by rewrite IH.
Qed.

Lemma set_prop_idemp k v o : set_prop k v (set_prop k v o) = set_prop k v o.
Proof.
  induction o as [|[k0 v0] o IH]; simpl.
  - by rewrite bool_decide_eq_true_2.
  - case_bool_decide as Hk; simpl.
    + by rewrite bool_decide_eq_true_2.
    + by rewrite bool_decide_eq_false_2, IH.
Qed.

(** Line 91 is idempotent: run on its own output, it changes nothing. *)
Lemma after_line_91_idemp o : after_line_91 (after_line_91 o) = after_line_91 o.
Proof.
  unfold after_line_91. destruct (truthy (get_own o "format")) eqn:Hf; [|by rewrite Hf].
  rewrite get_own_set_prop_ne by discriminate. rewrite Hf.
  apply set_prop_idemp.
Qed.

Lemma heap_after_line_91_lookup h l o :
  h !! l = Some o -> heap_after_line_91 h l o !! l = Some (after_line_91 o).
Proof.
  intros Hl. unfold heap_after_line_91, after_line_91.
  destruct (truthy _); [apply lookup_insert_eq | done].
Qed.

(** The whole function on an object argument, branch by branch. *)
Lemma createOptimizedSrc_object E s h l o :
  h !! l = Some o ->
  createOptimizedSrc E s (VRef l) h =
    let h' := heap_after_line_91 h l o in
    match o with
    | [] => (Return s, h')
    | _ :: _ =>
        match scoping E with
        | TDZ => (Throw ReferenceError, h')
        | Hoisted =>
            (Return (VStr (optimizerUrlBase E +:+ "/?" +:+ qs_stringify E [("img", s)])),
             <[fresh (dom h') := [("img", s)]]> h')
        end
    end.
Proof.
  intros Hl.
  unfold createOptimizedSrc, get_member, set_member, Object_keys, own_props,
    object_spread, heap_after_line_91, after_line_91.
  repeat js_step.
  destruct o as [|kv o]; [simpl; by repeat js_step|].
  set (o0 := kv :: o) in *.
  assert (Hkeys : forall o1 : object, o1 <> [] -> bool_decide (0 < length o1.*1) = true).
  { intros [|? ?] ?; [done|]. apply bool_decide_eq_true_2. simpl. lia. }
  destruct (truthy (get_own o0 "format")); repeat js_step;
    (rewrite Hkeys by (apply set_prop_not_nil || done));
    unfold read_in_own_initializer; destruct (scoping E);
    repeat (first [js_step | progress cbn [own_props assign fold_left set_prop]]);
    reflexivity.
Qed.

(** After the call, the options object holds what line 91 left of it, whether
    the call returned or threw. *)
Lemma createOptimizedSrc_heap_at E s h l o :
  h !! l = Some o ->
  (createOptimizedSrc E s (VRef l) h).2 !! l = Some (after_line_91 o).
Proof.
  intros Hl. rewrite (createOptimizedSrc_object E s h l o Hl). cbv zeta.
  pose proof (heap_after_line_91_lookup h l o Hl) as Hl'.
  destruct o as [|kv o]; [exact Hl'|].
  destruct (scoping E); simpl; [exact Hl'|].
  rewrite lookup_insert_ne by eauto using fresh_ne. exact Hl'.
Qed.

(** The completion of a call on an object with at least one own key. *)
Lemma createOptimizedSrc_result_nonempty E s h l o :
  h !! l = Some o -> o <> [] ->
  (createOptimizedSrc E s (VRef l) h).1 =
    match scoping E with
    | TDZ => Throw ReferenceError
    | Hoisted =>
        Return (VStr (optimizerUrlBase E +:+ "/?" +:+ qs_stringify E [("img", s)]))
    end.
Proof.
  intros Hl Hne. rewrite (createOptimizedSrc_object E s h l o Hl). cbv zeta.
  destruct o as [|kv o]; [done|]. by destruct (scoping E).
Qed.

(** The fast path of line 97: an object with no own key. *)
Lemma createOptimizedSrc_empty E s h l :
  h !! l = Some [] -> createOptimizedSrc E s (VRef l) h = (Return s, h).
Proof. intros Hl. by rewrite (createOptimizedSrc_object E s h l [] Hl). Qed.

(** The default parameter: no options at all. *)
Lemma createOptimizedSrc_no_options E s h :
  (createOptimizedSrc E s VUndefined h).1 = Return s.
Proof.
  unfold createOptimizedSrc, get_member, Object_keys, own_props.
  repeat js_step. cbn [get_own truthy]. by repeat js_step.
Qed.

(** [options.format] is read before anything else: null has no members. *)
Lemma createOptimizedSrc_null E s h :
  createOptimizedSrc E s VNull h = (Throw TypeError, h).
Proof. reflexivity. Qed.

(** C1 (the code departs from the claim).  For every options object with at
    least one own key, [createOptimizedSrc] does not return the base URL
    followed by the serialized options: the [options] read on line 94 is the
    block's own, not yet initialised binding, so natively the call throws a
    ReferenceError, and compiled without dead-zone checks it returns a URL
    whose query string carries [img] alone, whatever the options were. *)
Theorem createOptimizedSrc_nonempty_options E s h l o :
  h !! l = Some o -> o <> [] ->
  createOptimizedSrc E s (VRef l) h =
    match scoping E with
    | TDZ => (Throw ReferenceError, heap_after_line_91 h l o)
    | Hoisted =>
        (Return (VStr (optimizerUrlBase E +:+ "/?" +:+ qs_stringify E [("img", s)])),
         <[fresh (dom (heap_after_line_91 h l o)) := [("img", s)]]>
           (heap_after_line_91 h l o))
    end.
Proof.
  intros Hl Hne. rewrite (createOptimizedSrc_object E s h l o Hl). cbv zeta.
  destruct o as [|kv o]; [done|]. by destruct (scoping E).
Qed.

Lemma createOptimizedSrc_nonempty_options_witness :
  Examples.heap_quality_width !! Examples.l0
    = Some [("quality", VNum 80); ("width", VNum 200)] /\
  [("quality", VNum 80); ("width", VNum 200)] <> [] /\
  (createOptimizedSrc (module_env TDZ) (VStr "https://x/a.jpg")
     (VRef Examples.l0) Examples.heap_quality_width).1 = Throw ReferenceError.
Proof.
  split; [reflexivity|]. split; [discriminate|].
  rewrite (createOptimizedSrc_nonempty_options (module_env TDZ)
             (VStr "https://x/a.jpg") Examples.heap_quality_width Examples.l0
             [("quality", VNum 80); ("width", VNum 200)]);
    [reflexivity | reflexivity | discriminate].
Defined.

(** The same call compiled without dead-zone checks: quality and width are
    lost, where the spec's example expects
    [/?quality=80&width=200&img=https%3A%2F%2Fx%2Fa.jpg]. *)
Example createOptimizedSrc_quality_width_hoisted :
  (createOptimizedSrc (module_env Hoisted) (VStr "https://x/a.jpg")
     (VRef Examples.l0) Examples.heap_quality_width).1
  = Return (VStr "https://opt.moovweb.net/?img=https%3A%2F%2Fx%2Fa.jpg").
Proof. vm_compute. reflexivity. Qed.

(** ** The per-render call (lines 303-306) *)

(** [getOptimizedSrc] is [createOptimizedSrc] on a fresh object: the own
    properties of [optimize], then [quality]. *)
Lemma getOptimizedSrc_fresh_options E p h o :
  own_props (optimize p) h = (Return o, h) ->
  getOptimizedSrc E p h =
    createOptimizedSrc E (src p) (VRef (fresh (dom h)))
      (<[fresh (dom h) := set_prop "quality" (quality p) o]> h).
Proof.
  intros Ho. unfold getOptimizedSrc, object_spread.
  rewrite bind_assoc. unfold bind at 1. rewrite Ho.
  by rewrite bind_alloc.
Qed.

Lemma getOptimizedSrc_result E p h o :
  own_props (optimize p) h = (Return o, h) ->
  (getOptimizedSrc E p h).1 =
    match scoping E with
    | TDZ => Throw ReferenceError
    | Hoisted =>
        Return (VStr (optimizerUrlBase E +:+ "/?" +:+ qs_stringify E [("img", src p)]))
    end.
Proof.
  intros Ho. rewrite (getOptimizedSrc_fresh_options E p h o Ho).
  apply (createOptimizedSrc_result_nonempty E (src p) _ _
           (set_prop "quality" (quality p) o)).
  - apply lookup_insert_eq.
  - apply set_prop_not_nil.
Qed.

(** C2 (the code departs from the claim).  The options object that
    [getOptimizedSrc] passes always has the own key [quality], also when the
    [quality] prop is null and [optimize] is [{}]; [Object.keys] counts it, so
    the per-render call never takes the fast path of line 97 and never hands
    back [src] through it: it ends on line 94-95 like every call with a
    non-empty options object. *)
Theorem getOptimizedSrc_never_fast_path E p h o :
  own_props (optimize p) h = (Return o, h) ->
  exists l options,
    (getOptimizedSrc E p h).2 !! l = Some options /\
    get_own options "quality" = quality p /\
    0 < length options.*1 /\
    (getOptimizedSrc E p h).1 =
      match scoping E with
      | TDZ => Throw ReferenceError
      | Hoisted =>
          Return (VStr (optimizerUrlBase E +:+ "/?"
                        +:+ qs_stringify E [("img", src p)]))
      end.
Proof.
  intros Ho. exists (fresh (dom h)), (after_line_91 (set_prop "quality" (quality p) o)).
  split; [|split; [|split]].
  - rewrite (getOptimizedSrc_fresh_options E p h o Ho).
    apply createOptimizedSrc_heap_at, lookup_insert_eq.
  - unfold after_line_91. destruct (truthy _).
    + rewrite get_own_set_prop_ne by discriminate. apply get_own_set_prop_eq.
    + apply get_own_set_prop_eq.
  - destruct (after_line_91 _) as [|kv o'] eqn:Hnil; [|simpl; lia].
    apply (proj1 (after_line_91_nil _)) in Hnil. by apply set_prop_not_nil in Hnil.
  - by apply getOptimizedSrc_result with o.
Qed.

Lemma getOptimizedSrc_never_fast_path_witness :
  own_props (optimize (defaultProps Examples.l0 (VStr "a.jpg"))) Examples.heap_default
    = (Return [], Examples.heap_default) /\
  exists l options,
    (getOptimizedSrc (module_env TDZ) (defaultProps Examples.l0 (VStr "a.jpg"))
       Examples.heap_default).2 !! l = Some options /\
    get_own options "quality" = VNull /\
    0 < length options.*1 /\
    (getOptimizedSrc (module_env TDZ) (defaultProps Examples.l0 (VStr "a.jpg"))
       Examples.heap_default).1 = Throw ReferenceError.
Proof.
  split; [reflexivity|].
  apply (getOptimizedSrc_never_fast_path (module_env TDZ)
           (defaultProps Examples.l0 (VStr "a.jpg")) Examples.heap_default []).
  reflexivity.
Defined.

(** With the default props the rendered source is not [src], under either
    scoping. *)
Example getOptimizedSrc_default_props :
  (getOptimizedSrc (module_env TDZ) (defaultProps Examples.l0 (VStr "a.jpg"))
     Examples.heap_default).1 = Throw ReferenceError /\
  (getOptimizedSrc (module_env Hoisted) (defaultProps Examples.l0 (VStr "a.jpg"))
     Examples.heap_default).1 = Return (VStr "https://opt.moovweb.net/?img=a.jpg").
Proof. split; vm_compute; reflexivity. Qed.

(** Called directly with [{quality: null}], the function does not return
    [src] either, while [{}] and no options at all do. *)
Example createOptimizedSrc_quality_null :
  let h : heap := {[ Examples.l0 := [("quality", VNull)] ]} in
  (createOptimizedSrc (module_env TDZ) (VStr "a.jpg") (VRef Examples.l0) h).1
    = Throw ReferenceError /\
  (createOptimizedSrc (module_env Hoisted) (VStr "a.jpg") (VRef Examples.l0) h).1
    = Return (VStr "https://opt.moovweb.net/?img=a.jpg").
Proof. split; vm_compute; reflexivity. Qed.

(** ** The [format] option and the caller's object (line 91) *)

Lemma get_own_has_own o k : get_own o k <> VUndefined -> has_own o k = true.
Proof.
  unfold has_own. intros Hk. apply bool_decide_eq_true_2.
  induction o as [|[k' v'] o IH]; simpl in *; [done|].
  case_bool_decide; [subst; left | right; auto].
Qed.

Lemma elem_of_keys_set_prop k k' v o :
  k' ∈ (set_prop k v o).*1 <-> k' = k \/ k' ∈ o.*1.
Proof.
  induction o as [|[k0 v0] o IH]; simpl.
  - set_solver.
  - case_bool_decide as Hk0; simpl.
    + rewrite !elem_of_cons. subst k0. tauto.
    + rewrite !elem_of_cons, IH. tauto.
Qed.

Lemma has_own_set_prop k k' v o :
  has_own (set_prop k v o) k' = bool_decide (k' = k) || has_own o k'.
Proof.
  unfold has_own. rewrite <- bool_decide_or.
  apply bool_decide_ext, elem_of_keys_set_prop.
Qed.

(** Line 91 on the caller's object: for every options object whose [format]
    is truthy, after the call the object has the key [fmt] with the value of
    [format], and it still has the key [format] with its value. *)
Theorem createOptimizedSrc_format_copied_and_kept E s h l o :
  h !! l = Some o ->
  truthy (get_own o "format") = true ->
  exists o',
    (createOptimizedSrc E s (VRef l) h).2 !! l = Some o' /\
    has_own o' "fmt" = true /\
    get_own o' "fmt" = get_own o "format" /\
    has_own o' "format" = true /\
    get_own o' "format" = get_own o "format".
Proof.
  intros Hl Hf. exists (set_prop "fmt" (get_own o "format") o).
  split; [|split; [|split; [|split]]].
  - rewrite (createOptimizedSrc_heap_at E s h l o Hl).
    unfold after_line_91. by rewrite Hf.
  - rewrite has_own_set_prop. by rewrite bool_decide_eq_true_2.
  - apply get_own_set_prop_eq.
  - rewrite has_own_set_prop. rewrite (get_own_has_own o "format").
    + apply orb_true_r.
    + intros Hu. rewrite Hu in Hf. discriminate.
  - apply get_own_set_prop_ne. discriminate.
Qed.

Lemma createOptimizedSrc_format_copied_and_kept_witness :
  Examples.heap_format !! Examples.l0 = Some [("format", VStr "webp")] /\
  truthy (get_own [("format", VStr "webp")] "format") = true /\
  exists o',
    (createOptimizedSrc (module_env Hoisted) (VStr "a.jpg") (VRef Examples.l0)
       Examples.heap_format).2 !! Examples.l0 = Some o' /\
    has_own o' "fmt" = true /\
    get_own o' "fmt" = VStr "webp" /\
    has_own o' "format" = true /\
    get_own o' "format" = VStr "webp".
Proof.
  split; [reflexivity|]. split; [reflexivity|].
  apply (createOptimizedSrc_format_copied_and_kept (module_env Hoisted)
           (VStr "a.jpg") Examples.heap_format Examples.l0
           [("format", VStr "webp")]); reflexivity.
Defined.

(** With [{format: "webp"}] no URL comes back whose query string has
    [fmt=webp]: natively the call throws, and compiled without dead-zone
    checks the query string is [img=a.jpg]. *)
Lemma format_query_string_counterexample :
  ~ (exists url,
       (createOptimizedSrc (module_env TDZ) (VStr "a.jpg") (VRef Examples.l0)
          Examples.heap_format).1 = Return (VStr url) /\
       contains "fmt=webp" url = true /\ contains "format=" url = false) /\
  ~ (exists url,
       (createOptimizedSrc (module_env Hoisted) (VStr "a.jpg") (VRef Examples.l0)
          Examples.heap_format).1 = Return (VStr url) /\
       contains "fmt=webp" url = true /\ contains "format=" url = false) /\
  (createOptimizedSrc (module_env TDZ) (VStr "a.jpg") (VRef Examples.l0)
     Examples.heap_format).1 = Throw ReferenceError /\
  (createOptimizedSrc (module_env Hoisted) (VStr "a.jpg") (VRef Examples.l0)
     Examples.heap_format).1 = Return (VStr "https://opt.moovweb.net/?img=a.jpg").
Proof.
  split; [|split; [|split]]; [| |vm_compute; reflexivity..].
  - intros (url & Hurl & _). vm_compute in Hurl. discriminate.
  - intros (url & Hurl & Hfmt & _). vm_compute in Hurl.
    injection Hurl as <-. vm_compute in Hfmt. discriminate.
Qed.

(** C3 (the code departs from the claim).  For every options object whose
    [format] is truthy, line 91 does write [fmt = format] on the object, but
    the query string never has a [fmt] pair: the call either throws the
    ReferenceError of line 94 (natively) or returns the base URL, ["/?"] and
    the serialization of [{img: src}] alone (compiled without dead-zone
    checks), the object with [fmt] never reaching [qs.stringify]. *)
Theorem createOptimizedSrc_format_not_sent E s h l o :
  h !! l = Some o ->
  truthy (get_own o "format") = true ->
  (exists o',
     (createOptimizedSrc E s (VRef l) h).2 !! l = Some o' /\
     get_own o' "fmt" = get_own o "format") /\
  (createOptimizedSrc E s (VRef l) h).1 =
    match scoping E with
    | TDZ => Throw ReferenceError
    | Hoisted =>
        Return (VStr (optimizerUrlBase E +:+ "/?" +:+ qs_stringify E [("img", s)]))
    end.
Proof.
  intros Hl Hf. split.
  - exists (after_line_91 o). split; [by apply createOptimizedSrc_heap_at|].
    unfold after_line_91. rewrite Hf. apply get_own_set_prop_eq.
  - apply createOptimizedSrc_result_nonempty with o; [done|].
    intros ->. discriminate Hf.
Qed.

Lemma createOptimizedSrc_format_not_sent_witness :
  Examples.heap_format !! Examples.l0 = Some [("format", VStr "webp")] /\
  truthy (get_own [("format", VStr "webp")] "format") = true /\
  (createOptimizedSrc (module_env Hoisted) (VStr "a.jpg") (VRef Examples.l0)
     Examples.heap_format).1
    = Return (VStr "https://opt.moovweb.net/?img=a.jpg") /\
  contains "fmt=webp" "https://opt.moovweb.net/?img=a.jpg" = false.
Proof.
  split; [reflexivity|]. split; [reflexivity|]. split; [|reflexivity].
  apply (createOptimizedSrc_format_not_sent (module_env Hoisted) (VStr "a.jpg")
           Examples.heap_format Examples.l0 [("format", VStr "webp")]);
    reflexivity.
Defined.

(** C4 (as amended).  The call leaves the options object unchanged when its
    [format] is falsy or absent; when [format] is truthy it writes
    [fmt = format] on the caller's object and changes no other key; either
    way a second call with the same object completes as the first did and
    leaves the object as the first left it. *)
Theorem createOptimizedSrc_options_after_call E s h l o :
  h !! l = Some o ->
  (createOptimizedSrc E s (VRef l) h).2 !! l = Some (after_line_91 o) /\
  (truthy (get_own o "format") = false -> after_line_91 o = o) /\
  (forall k, k <> "fmt" ->
     has_own (after_line_91 o) k = has_own o k /\
     get_own (after_line_91 o) k = get_own o k) /\
  (createOptimizedSrc E s (VRef l) (createOptimizedSrc E s (VRef l) h).2).1
    = (createOptimizedSrc E s (VRef l) h).1 /\
  (createOptimizedSrc E s (VRef l) (createOptimizedSrc E s (VRef l) h).2).2 !! l
    = Some (after_line_91 o).
Proof.
  intros Hl.
  pose proof (createOptimizedSrc_heap_at E s h l o Hl) as Hl1.
  split; [exact Hl1|]. split; [|split; [|split]].
  - intros Hf. unfold after_line_91. by rewrite Hf.
  - intros k Hk. unfold after_line_91. destruct (truthy _); [|done]. split.
    + rewrite has_own_set_prop. by rewrite bool_decide_eq_false_2.
    + by apply get_own_set_prop_ne.
  - rewrite (createOptimizedSrc_object E s _ l _ Hl1).
    rewrite (createOptimizedSrc_object E s h l o Hl). cbv zeta.
    destruct (after_line_91 o) as [|kv1 o1] eqn:Ha.
    + apply (proj1 (after_line_91_nil _)) in Ha. by subst o.
    + destruct o as [|kv o]; [done|]. by destruct (scoping E).
  - rewrite (createOptimizedSrc_heap_at E s _ l _ Hl1).
    by rewrite after_line_91_idemp.
Qed.

Lemma createOptimizedSrc_options_after_call_witness :
  Examples.heap_format !! Examples.l0 = Some [("format", VStr "webp")] /\
  (createOptimizedSrc (module_env Hoisted) (VStr "a.jpg") (VRef Examples.l0)
     Examples.heap_format).2 !! Examples.l0
  = Some [("format", VStr "webp"); ("fmt", VStr "webp")].
Proof.
  split; [reflexivity|].
  apply (createOptimizedSrc_options_after_call (module_env Hoisted)
           (VStr "a.jpg") Examples.heap_format Examples.l0
           [("format", VStr "webp")]).
  reflexivity.
Defined.

(** C4 (counterexample).  After a call with [{format: "webp"}] the caller's
    object is [{format: "webp", fmt: "webp"}], under either scoping. *)
Lemma options_argument_mutated :
  Examples.heap_format !! Examples.l0 = Some [("format", VStr "webp")] /\
  (createOptimizedSrc (module_env TDZ) (VStr "a.jpg") (VRef Examples.l0)
     Examples.heap_format).2 !! Examples.l0
    = Some [("format", VStr "webp"); ("fmt", VStr "webp")] /\
  (createOptimizedSrc (module_env Hoisted) (VStr "a.jpg") (VRef Examples.l0)
     Examples.heap_format).2 !! Examples.l0
    = Some [("format", VStr "webp"); ("fmt", VStr "webp")] /\
  (createOptimizedSrc (module_env TDZ) (VStr "a.jpg") (VRef Examples.l0)
     Examples.heap_format).2 !! Examples.l0
    <> Examples.heap_format !! Examples.l0 /\
  (createOptimizedSrc (module_env Hoisted) (VStr "a.jpg") (VRef Examples.l0)
     Examples.heap_format).2 !! Examples.l0
    <> Examples.heap_format !! Examples.l0.
Proof. repeat split; vm_compute; (reflexivity || discriminate). Qed.

(** ** The load state machine (lines 178-195, 293-301) *)

(** Both flags are latches: no step takes a truthy flag back. *)
Lemma step_loaded_latch st e :
  truthy (loaded st) = true -> loaded (step st e) = loaded st.
Proof.
  intros Hl. destruct e as [[i|]| |v]; simpl; try done.
  - unfold componentDidMount; simpl. by destruct (complete i && _).
  - unfold lazyLoad, js_and, js_not. rewrite Hl. simpl. done.
Qed.

Lemma step_primaryNotFound_latch st e :
  primaryNotFound st = VBool true -> primaryNotFound (step st e) = VBool true.
Proof.
  intros Hp. destruct e as [[i|]| |v]; simpl; try done.
  - unfold componentDidMount; simpl. by destruct (complete i && _).
  - unfold lazyLoad. by destruct (truthy _).
Qed.

Lemma run_loaded_latch es : forall st,
  loaded st = VBool true -> loaded (run st es) = VBool true.
Proof.
  induction es as [|e es IH]; intros st Hl; [done|].
  simpl. apply IH. rewrite step_loaded_latch; [done|]. by rewrite Hl.
Qed.

Lemma run_primaryNotFound_latch es : forall st,
  primaryNotFound st = VBool true -> primaryNotFound (run st es) = VBool true.
Proof.
  induction es as [|e es IH]; intros st Hp; [done|].
  simpl. by apply IH, step_primaryNotFound_latch.
Qed.

(** C6.  An instance constructed with [lazy = true] and [amp = false] starts
    with [loaded = false]; one visibility event with [isVisible = true] makes
    it true; and whatever events follow (visibility events with either
    value, error events, the mount check), [loaded] is still true. *)
Theorem loaded_is_a_latch :
  loaded (constructor (VBool true) (VBool false)) = VBool false /\
  loaded (lazyLoad (VBool true) (constructor (VBool true) (VBool false)))
    = VBool true /\
  forall es : list Event,
    loaded (run (constructor (VBool true) (VBool false))
              (VisibilityChange (VBool true) :: es)) = VBool true.
Proof.
  split; [reflexivity|]. split; [reflexivity|].
  intros es. simpl. by apply run_loaded_latch.
Qed.

(** C7.  After an error event [primaryNotFound] is true; a second error event
    leaves the state as it is; and once [primaryNotFound] is true, no
    sequence of mount checks, error events and visibility events makes it
    anything else. *)
Theorem primaryNotFound_is_a_latch (st : State) (es : list Event) :
  primaryNotFound (step st ErrorEvent) = VBool true /\
  step (step st ErrorEvent) ErrorEvent = step st ErrorEvent /\
  (primaryNotFound st = VBool true ->
   primaryNotFound (run st es) = VBool true).
Proof.
  split; [reflexivity|]. split; [reflexivity|].
  apply run_primaryNotFound_latch.
Qed.

Lemma primaryNotFound_is_a_latch_witness :
  primaryNotFound (step (constructor (VBool false) (VBool false)) ErrorEvent)
    = VBool true /\
  primaryNotFound
    (run (step (constructor (VBool false) (VBool false)) ErrorEvent)
       [VisibilityChange (VBool false); MountCheck None; ErrorEvent;
        VisibilityChange (VBool true);
        MountCheck (Some {| complete := true; naturalWidth := 0 |})])
    = VBool true.
Proof.
  split; [reflexivity|].
  apply (primaryNotFound_is_a_latch
           (step (constructor (VBool false) (VBool false)) ErrorEvent)).
  reflexivity.
Defined.

(** The mount check sets the flag exactly for a complete image of natural
    width 0. *)
Lemma componentDidMount_sets st i :
  primaryNotFound (componentDidMount (Some i) st) =
    if complete i && (naturalWidth i =? 0)%Z then VBool true else primaryNotFound st.
Proof. unfold componentDidMount. by destruct (complete i && _). Qed.

(** ** Rendering (lines 197-281) *)

Lemma own_props_cases v h :
  (exists o, own_props v h = (Return o, h)) \/ own_props v h = (Throw DanglingRef, h).
Proof.
  destruct v; simpl; unfold ret, deref; eauto.
  destruct (h !! l); eauto.
Qed.

(** The per-render call touches no object that existed before it. *)
Lemma getOptimizedSrc_frame E p h l o :
  h !! l = Some o -> (getOptimizedSrc E p h).2 !! l = Some o.
Proof.
  intros Hl. destruct (own_props_cases (optimize p) h) as [[o0 Ho]|Ho].
  - rewrite (getOptimizedSrc_fresh_options E p h o0 Ho).
    pose proof (fresh_ne h l o Hl) as Hne.
    set (l' := fresh (dom h)) in *. set (o1 := set_prop "quality" (quality p) o0).
    assert (Hl' : (<[l' := o1]> h) !! l' = Some o1) by apply lookup_insert_eq.
    rewrite (createOptimizedSrc_object E (src p) _ l' o1 Hl'). cbv zeta.
    assert (Hkeep : heap_after_line_91 (<[l' := o1]> h) l' o1 !! l = Some o).
    { unfold heap_after_line_91. destruct (truthy _);
        rewrite ?lookup_insert_ne by done; done. }
    destruct o1 as [|kv o2]; [done|]. destruct (scoping E); simpl; [done|].
    rewrite lookup_insert_ne; [done|]. by eapply fresh_ne.
  - unfold getOptimizedSrc, object_spread. rewrite bind_assoc.
    unfold bind at 1. by rewrite Ho.
Qed.

(** What a completed render returned, read back from the source. *)
Lemma render_inv E p st h el h' :
  render E p st h = (Return (Some el), h') ->
  nullish (src p) = false /\
  exists optimized,
    getOptimizedSrc E p h = (Return optimized, h') /\
    c_root (container_of el) = true /\
    c_contain (container_of el) = truthy (js_or (contain p) (aspectRatio p)) /\
    c_fill (container_of el) = truthy (fill p) /\
    image_src el =
      if truthy (amp p) || truthy (loaded st)
      then Some (if truthy (js_and (primaryNotFound st) (notFoundSrc p))
                 then notFoundSrc p else optimized)
      else None.
Proof.
  unfold render. destruct (nullish (src p)); [discriminate|].
  unfold bind. destruct (getOptimizedSrc E p h) as [[u|e] h1]; [|discriminate].
  intros Hr. split; [done|]. exists u.
  destruct (truthy (js_and (js_not (amp p)) (lazy p)));
    injection Hr as <- <-; (split; [done|]); unfold image_src; simpl;
    destruct (truthy (amp p)); simpl; try done;
    destruct (truthy (loaded st)); done.
Qed.

(** Past the null check, render completes whenever the per-render call does. *)
Lemma render_completes E p st h optimized h' :
  nullish (src p) = false ->
  getOptimizedSrc E p h = (Return optimized, h') ->
  exists el, render E p st h = (Return (Some el), h').
Proof.
  intros Hs Hg. unfold render. rewrite Hs. unfold bind. rewrite Hg.
  destruct (truthy (js_and _ _)); eauto.
Qed.

Lemma render_heap E p st h :
  (render E p st h).2 = if nullish (src p) then h else (getOptimizedSrc E p h).2.
Proof.
  unfold render. destruct (nullish (src p)); [done|].
  unfold bind. destruct (getOptimizedSrc E p h) as [[u|e] h1]; [|done].
  by destruct (truthy (js_and _ _)).
Qed.

(** C5 (as amended).  On every render that completes with
    [state.primaryNotFound] and [notFoundSrc] both truthy, the [src] of the
    image element is [notFoundSrc] itself, verbatim: line 224 calls the
    optimizer on [props.src], and lines 226-228 replace its result. *)
Theorem render_fallback_src_verbatim E p st h el h' :
  render E p st h = (Return (Some el), h') ->
  truthy (primaryNotFound st) = true ->
  truthy (notFoundSrc p) = true ->
  image_src el =
    if truthy (amp p) || truthy (loaded st) then Some (notFoundSrc p) else None.
Proof.
  intros Hr Hp Hn. apply render_inv in Hr as (_ & u & _ & _ & _ & _ & ->).
  unfold js_and. by rewrite Hp, Hn.
Qed.

Lemma render_fallback_src_verbatim_witness :
  exists el h',
    render (module_env Hoisted)
      (Examples.image_props (VStr "a.jpg") (VStr "nf.png") VUndefined)
      Examples.state_not_found Examples.heap_default
    = (Return (Some el), h') /\
    image_src el = Some (VStr "nf.png").
Proof.
  destruct (render (module_env Hoisted)
              (Examples.image_props (VStr "a.jpg") (VStr "nf.png") VUndefined)
              Examples.state_not_found Examples.heap_default)
    as [[[el|]|e] h'] eqn:Hr; [|vm_compute in Hr; discriminate..].
  exists el, h'. split; [reflexivity|].
  apply (render_fallback_src_verbatim _ _ _ _ _ _ Hr); reflexivity.
Defined.

(** C5 (counterexample).  With [notFoundSrc = "nf.png"] and the primary image
    failed, no render presents the optimizer's output for the fallback
    source: natively the render throws on line 224, and compiled without
    dead-zone checks it presents ["nf.png"], not
    ["https://opt.moovweb.net/?img=nf.png"]. *)
Lemma fallback_src_not_optimized :
  ~ (exists el u,
       (render (module_env TDZ)
          (Examples.image_props (VStr "a.jpg") (VStr "nf.png") VUndefined)
          Examples.state_not_found Examples.heap_default).1
         = Return (Some el) /\
       (getOptimizedSrc (module_env TDZ)
          (Examples.image_props (VStr "nf.png") (VStr "nf.png") VUndefined)
          Examples.heap_default).1 = Return u /\
       image_src el = Some u) /\
  ~ (exists el u,
       (render (module_env Hoisted)
          (Examples.image_props (VStr "a.jpg") (VStr "nf.png") VUndefined)
          Examples.state_not_found Examples.heap_default).1
         = Return (Some el) /\
       (getOptimizedSrc (module_env Hoisted)
          (Examples.image_props (VStr "nf.png") (VStr "nf.png") VUndefined)
          Examples.heap_default).1 = Return u /\
       image_src el = Some u) /\
  exists el,
    (render (module_env Hoisted)
       (Examples.image_props (VStr "a.jpg") (VStr "nf.png") VUndefined)
       Examples.state_not_found Examples.heap_default).1
      = Return (Some el) /\
    image_src el = Some (VStr "nf.png").
Proof.
  split; [|split].
  - intros (el & u & Hr & _). vm_compute in Hr. discriminate.
  - intros (el & u & Hr & Hu & Himg). vm_compute in Hr.
    injection Hr as <-. vm_compute in Hu. injection Hu as <-.
    vm_compute in Himg. discriminate.
  - eexists. split; vm_compute; reflexivity.
Qed.

(** C8 (as amended).  On every render that completes with a truthy
    [aspectRatio] (a number other than 0), the container carries the contain
    class whatever the [contain] prop is; in general the flag is the
    truthiness of [contain || aspectRatio]. *)
Theorem render_contain_forced_by_truthy_aspectRatio E p st h el h' :
  render E p st h = (Return (Some el), h') ->
  truthy (aspectRatio p) = true ->
  c_contain (container_of el) = true.
Proof.
  intros Hr Ha. apply render_inv in Hr as (_ & u & _ & _ & -> & _).
  unfold js_or. destruct (truthy (contain p)) eqn:Hc; by rewrite ?Hc, ?Ha.
Qed.

Lemma render_contain_forced_by_truthy_aspectRatio_witness :
  exists el h',
    render (module_env Hoisted)
      (Examples.image_props (VStr "a.jpg") VUndefined (VNum 50))
      Examples.state_loaded Examples.heap_default
    = (Return (Some el), h') /\
    contain (Examples.image_props (VStr "a.jpg") VUndefined (VNum 50))
      = VBool false /\
    c_contain (container_of el) = true.
Proof.
  destruct (render (module_env Hoisted)
              (Examples.image_props (VStr "a.jpg") VUndefined (VNum 50))
              Examples.state_loaded Examples.heap_default)
    as [[[el|]|e] h'] eqn:Hr; [|vm_compute in Hr; discriminate..].
  exists el, h'. split; [reflexivity|]. split; [reflexivity|].
  apply (render_contain_forced_by_truthy_aspectRatio _ _ _ _ _ _ Hr); reflexivity.
Defined.

(** The contain flag of a completed render, in general. *)
Lemma render_contain_flag E p st h el h' :
  render E p st h = (Return (Some el), h') ->
  c_contain (container_of el) = truthy (contain p) || truthy (aspectRatio p).
Proof.
  intros Hr. apply render_inv in Hr as (_ & u & _ & _ & -> & _).
  unfold js_or. by destruct (truthy (contain p)) eqn:Hc; rewrite ?Hc.
Qed.

(** C8 (counterexample).  [aspectRatio = 0] is specified (line 234 applies
    the fit class for it) and [contain] is false: no render carries the
    contain class. *)
Lemma aspectRatio_zero_does_not_force_contain :
  negb (nullish (aspectRatio
          (Examples.image_props (VStr "a.jpg") VUndefined (VNum 0)))) = true /\
  ~ (exists el,
       (render (module_env TDZ)
          (Examples.image_props (VStr "a.jpg") VUndefined (VNum 0))
          Examples.state_loaded Examples.heap_default).1
         = Return (Some el) /\
       c_contain (container_of el) = true) /\
  ~ (exists el,
       (render (module_env Hoisted)
          (Examples.image_props (VStr "a.jpg") VUndefined (VNum 0))
          Examples.state_loaded Examples.heap_default).1
         = Return (Some el) /\
       c_contain (container_of el) = true) /\
  exists el,
    (render (module_env Hoisted)
       (Examples.image_props (VStr "a.jpg") VUndefined (VNum 0))
       Examples.state_loaded Examples.heap_default).1
      = Return (Some el) /\
    c_contain (container_of el) = false.
Proof.
  split; [reflexivity|]. split; [|split].
  - intros (el & Hr & Hc). vm_compute in Hr. discriminate.
  - intros (el & Hr & Hc). vm_compute in Hr.
    injection Hr as <-. vm_compute in Hc. discriminate.
  - eexists. split; vm_compute; reflexivity.
Qed.

(** C9.  A render never changes the caller's [optimize] object, whatever its
    keys ([format] included): [getOptimizedSrc] hands [createOptimizedSrc] a
    newly allocated object holding the properties of [optimize] and
    [quality], at a location other than that of [optimize], and after the
    render the [optimize] object has the keys and values it had before. *)
Theorem render_never_mutates_optimize E p st h l o :
  optimize p = VRef l ->
  h !! l = Some o ->
  fresh (dom h) <> l /\
  getOptimizedSrc E p h =
    createOptimizedSrc E (src p) (VRef (fresh (dom h)))
      (<[fresh (dom h) := set_prop "quality" (quality p) o]> h) /\
  (getOptimizedSrc E p h).2 !! l = Some o /\
  (render E p st h).2 !! l = Some o.
Proof.
  intros Ho Hl. split; [by eapply fresh_ne|]. split; [|split].
  - apply getOptimizedSrc_fresh_options. rewrite Ho. simpl. unfold deref.
    by rewrite Hl.
  - by apply getOptimizedSrc_frame.
  - rewrite render_heap. destruct (nullish (src p)); [done|].
    by apply getOptimizedSrc_frame.
Qed.

Lemma render_never_mutates_optimize_witness :
  optimize (Examples.image_props (VStr "a.jpg") VUndefined VUndefined)
    = VRef Examples.l0 /\
  Examples.heap_format !! Examples.l0 = Some [("format", VStr "webp")] /\
  (render (module_env Hoisted)
     (Examples.image_props (VStr "a.jpg") VUndefined VUndefined)
     Examples.state_loaded Examples.heap_format).2 !! Examples.l0
    = Some [("format", VStr "webp")].
Proof.
  split; [reflexivity|]. split; [reflexivity|].
  apply (render_never_mutates_optimize (module_env Hoisted)
           (Examples.image_props (VStr "a.jpg") VUndefined VUndefined)
           Examples.state_loaded Examples.heap_format Examples.l0
           [("format", VStr "webp")]); reflexivity.
Defined.

(** Past the null check, under either scoping: natively the call on line 224
    throws the ReferenceError of line 94; compiled without dead-zone checks
    the container is produced. *)
Lemma render_past_null_check E p st h o :
  own_props (optimize p) h = (Return o, h) ->
  ((render E p st h).1 = Return None <-> nullish (src p) = true) /\
  (nullish (src p) = false ->
   match scoping E with
   | TDZ => (render E p st h).1 = Throw ReferenceError
   | Hoisted =>
       exists el,
         (render E p st h).1 = Return (Some el) /\
         c_root (container_of el) = true
   end).
Proof.
  intros Ho. pose proof (getOptimizedSrc_result E p h o Ho) as Hg.
  unfold render. destruct (nullish (src p)) eqn:Hs.
  - split; [done|discriminate].
  - unfold bind. destruct (getOptimizedSrc E p h) as [[u|e] h1]; simpl in Hg.
    + split.
      { split; [|discriminate]. by destruct (truthy (js_and _ _)). }
      intros _. destruct (scoping E); [discriminate|].
      destruct (truthy (js_and _ _)); eauto.
    + split; [split; discriminate|].
      intros _. destruct (scoping E); [by injection Hg as ->|discriminate].
Qed.

Lemma render_past_null_check_witness :
  own_props (optimize (Examples.image_props (VStr EmptyString) VUndefined VUndefined))
    Examples.heap_default = (Return [], Examples.heap_default) /\
  nullish (src (Examples.image_props (VStr EmptyString) VUndefined VUndefined)) = false /\
  (render (module_env TDZ)
     (Examples.image_props (VStr EmptyString) VUndefined VUndefined)
     Examples.state_loaded Examples.heap_default).1 = Throw ReferenceError.
Proof.
  split; [reflexivity|]. split; [reflexivity|].
  apply (render_past_null_check (module_env TDZ)
           (Examples.image_props (VStr EmptyString) VUndefined VUndefined)
           Examples.state_loaded Examples.heap_default []);
    reflexivity.
Defined.



(** The same render compiled without dead-zone checks. *)
Example render_empty_src_hoisted :
  exists el,
    (render (module_env Hoisted)
       (Examples.image_props (VStr EmptyString) VUndefined VUndefined)
       Examples.state_loaded Examples.heap_default).1 = Return (Some el) /\
    image_src el = Some (VStr "https://opt.moovweb.net/?img=").
Proof. eexists. split; vm_compute; reflexivity. Qed.

(** No [src], no output. *)
Example render_null_src :
  (render (module_env TDZ)
     (Examples.image_props VNull VUndefined VUndefined)
     Examples.state_loaded Examples.heap_default).1 = Return None /\
  (render (module_env TDZ)
     (Examples.image_props VUndefined VUndefined VUndefined)
     Examples.state_loaded Examples.heap_default).1 = Return None.
Proof. split; reflexivity. Qed.

(** ** Further properties of section 8 of the specification *)

(** Without [lazy] the image is loaded from the start, and AMP images always
    are. *)
Lemma constructor_not_lazy amp : truthy (loaded (constructor (VBool false) amp)) = true.
Proof. reflexivity. Qed.

Lemma constructor_amp lazy : truthy (loaded (constructor lazy (VBool true))) = true.
Proof.
  unfold constructor, js_or, js_not. cbn [loaded truthy].
  destruct (truthy lazy); reflexivity.
Qed.

(** A visibility event changes the state only when the image is not loaded
    and the event says visible. *)
Lemma lazyLoad_noop visible st :
  truthy (loaded st) = true \/ truthy visible = false -> lazyLoad visible st = st.
Proof.
  unfold lazyLoad, js_and, js_not. intros [Hl|Hv].
  - by rewrite Hl.
  - destruct (truthy (loaded st)); simpl; [done|]. by rewrite Hv.
Qed.

(** The AMP layout hint. *)
Lemma ampLayout_fill p :
  ampLayout p =
    if truthy (contain p) || truthy (fill p) || truthy (aspectRatio p)
    then "fill" else "intrinsic".
Proof.
  unfold ampLayout, js_or.
  destruct (truthy (contain p)) eqn:Hc; rewrite ?Hc; simpl; [done|].
  by destruct (truthy (fill p)) eqn:Hf; rewrite ?Hf.
Qed.

(** [setImageOptimizer] replaces the base of every later URL and nothing
    else. *)
Lemma setImageOptimizer_base url E :
  optimizerUrlBase (setImageOptimizer url E) = url /\
  scoping (setImageOptimizer url E) = scoping E /\
  qs_stringify (setImageOptimizer url E) = qs_stringify E.
Proof. done. Qed.

Example createOptimizedSrc_responsive :
  (createOptimizedSrc
     (setImageOptimizer RESPONSIVE_IMAGE_OPTIMIZER (module_env Hoisted))
     (VStr "a.jpg") (VRef Examples.l0) Examples.heap_quality_width).1
  = Return (VStr "https://optimize.moovweb.net/img/?img=a.jpg").
Proof. vm_compute. reflexivity. Qed.

(** ** More on the URL optimizer *)

(** The call with no second argument: the default [{}] is allocated and
    nothing else happens. *)
Lemma createOptimizedSrc_undefined E s h :
  createOptimizedSrc E s VUndefined h = (Return s, <[fresh (dom h) := []]> h).
Proof.
  unfold createOptimizedSrc, get_member, Object_keys, own_props.
  repeat js_step. cbn [get_own truthy]. by repeat js_step.
Qed.

(** The call on a primitive other than undefined and null. *)
Lemma createOptimizedSrc_primitive E s arg h :
  match arg with VBool _ | VNum _ | VStr _ => True | _ => False end ->
  createOptimizedSrc E s arg h =
    match arg with
    | VStr (String _ _) =>
        match scoping E with
        | TDZ => (Throw ReferenceError, h)
        | Hoisted =>
            (Return (VStr (optimizerUrlBase E +:+ "/?" +:+ qs_stringify E [("img", s)])),
             <[fresh (dom h) := [("img", s)]]> h)
        end
    | _ => (Return s, h)
    end.
Proof.
  destruct arg as [| | b | n | [|c str] | l]; try done; intros _;
    unfold createOptimizedSrc, get_member, Object_keys, own_props, object_spread;
    repeat js_step; cbn [truthy]; repeat js_step; try reflexivity.
  cbn [string_props fmap list_fmap length].
  rewrite bool_decide_eq_true_2 by (simpl; lia).
  unfold read_in_own_initializer. destruct (scoping E);
    repeat (first [js_step | progress cbn [own_props assign fold_left set_prop]]);
    reflexivity.
Qed.

Lemma createOptimizedSrc_dangling E s h l :
  h !! l = None -> createOptimizedSrc E s (VRef l) h = (Throw DanglingRef, h).
Proof.
  intros Hl. unfold createOptimizedSrc, get_member, bind, ret, deref.
  by rewrite Hl.
Qed.

(** X1.  Whatever the second argument is (absent, null, a primitive, an
    object), a call ends in one of four ways: it returns [src] itself; it
    returns the string made of the base URL, ["/?"] and the serialized
    [{img: src}] (only when compiled without dead-zone checks); it throws a
    TypeError (only for null); or it throws a ReferenceError (only natively).
    On a heap where the argument's reference resolves nothing else occurs. *)
Theorem createOptimizedSrc_completions E s arg h :
  let r := (createOptimizedSrc E s arg h).1 in
  r = Return s \/
  (r = Return (VStr (optimizerUrlBase E +:+ "/?" +:+ qs_stringify E [("img", s)])) /\
   scoping E = Hoisted) \/
  (r = Throw TypeError /\ arg = VNull) \/
  (r = Throw ReferenceError /\ scoping E = TDZ) \/
  (r = Throw DanglingRef /\ exists l, arg = VRef l /\ h !! l = None).
Proof.
  cbv zeta. destruct arg as [| | b | n | str | l].
  - left. by rewrite createOptimizedSrc_undefined.
  - right; right; left. done.
  - left. by rewrite createOptimizedSrc_primitive.
  - left. by rewrite createOptimizedSrc_primitive.
  - rewrite createOptimizedSrc_primitive by done.
    destruct str; [by left|]. destruct (scoping E) eqn:Hsc; simpl; eauto 10.
  - destruct (h !! l) as [o|] eqn:Hl.
    + rewrite (createOptimizedSrc_object E s h l o Hl). cbv zeta.
      destruct o; [by left|]. destruct (scoping E) eqn:Hsc; simpl; eauto 10.
    + rewrite createOptimizedSrc_dangling by done. simpl. eauto 10.
Qed.

(** X2.  An options argument that is not an object: null throws a TypeError
    on line 91 (the default [{}] stands in for undefined only); a boolean, a
    number and the empty string have no own keys and give [src] back without
    touching the heap; a non-empty string has its indices as keys and so
    reaches line 94. *)
Theorem createOptimizedSrc_non_object_options E s h :
  createOptimizedSrc E s VNull h = (Throw TypeError, h) /\
  (forall b, createOptimizedSrc E s (VBool b) h = (Return s, h)) /\
  (forall n, createOptimizedSrc E s (VNum n) h = (Return s, h)) /\
  createOptimizedSrc E s (VStr EmptyString) h = (Return s, h) /\
  (forall c str,
     (createOptimizedSrc E s (VStr (String c str)) h).1 =
       match scoping E with
       | TDZ => Throw ReferenceError
       | Hoisted =>
           Return (VStr (optimizerUrlBase E +:+ "/?" +:+ qs_stringify E [("img", s)]))
       end).
Proof.
  split; [done|]. repeat split; intros;
    rewrite createOptimizedSrc_primitive by done; try done.
  by destruct (scoping E).
Qed.

(** X3.  A call changes no object other than its options argument: every
    object that existed before the call at another location is there
    afterwards, unchanged, whether the call returned or threw. *)
Theorem createOptimizedSrc_frame E s arg h l' o' :
  h !! l' = Some o' ->
  arg <> VRef l' ->
  (createOptimizedSrc E s arg h).2 !! l' = Some o'.
Proof.
  intros Hl' Harg. pose proof (fresh_ne h l' o' Hl') as Hfresh.
  destruct arg as [| | b | n | str | l].
  - rewrite createOptimizedSrc_undefined. simpl. by rewrite lookup_insert_ne.
  - done.
  - by rewrite createOptimizedSrc_primitive.
  - by rewrite createOptimizedSrc_primitive.
  - rewrite createOptimizedSrc_primitive by done.
    destruct str; [done|]. destruct (scoping E); simpl; [done|].
    by rewrite lookup_insert_ne.
  - assert (l <> l') as Hne by congruence.
    destruct (h !! l) as [o|] eqn:Hl.
    + rewrite (createOptimizedSrc_object E s h l o Hl). cbv zeta.
      assert (Hkeep : heap_after_line_91 h l o !! l' = Some o').
      { unfold heap_after_line_91. destruct (truthy _);
          rewrite ?lookup_insert_ne by done; done. }
      destruct o; [done|]. destruct (scoping E); simpl; [done|].
      rewrite lookup_insert_ne; [done|]. by eapply fresh_ne.
    + by rewrite createOptimizedSrc_dangling.
Qed.

Lemma createOptimizedSrc_frame_witness :
  ({[ 1%positive := [("format", VStr "webp")];
      2%positive := [("width", VNum 200)] ]} : heap) !! 2%positive
    = Some [("width", VNum 200)] /\
  VRef 1%positive <> VRef 2%positive /\
  (createOptimizedSrc (module_env Hoisted) (VStr "a.jpg") (VRef 1%positive)
     ({[ 1%positive := [("format", VStr "webp")];
         2%positive := [("width", VNum 200)] ]} : heap)).2 !! 2%positive
    = Some [("width", VNum 200)].
Proof.
  split; [reflexivity|]. split; [discriminate|].
  apply (createOptimizedSrc_frame (module_env Hoisted) (VStr "a.jpg")
           (VRef 1%positive)); [reflexivity|discriminate].
Defined.

(** Line 91 allocates nothing. *)
Lemma dom_heap_after_line_91 (h : heap) l o :
  h !! l = Some o -> dom (heap_after_line_91 h l o) = dom h.
Proof.
  intros Hl. unfold heap_after_line_91. destruct (truthy _); [|done].
  rewrite dom_insert_L. apply elem_of_dom_2 in Hl.
  apply set_eq. intros x. rewrite elem_of_union, elem_of_singleton.
  split; [intros [->|]; done | auto].
Qed.

(** X4.  On an options object, the call returns [src] and leaves the heap
    exactly as it was if and only if the object has no own key. *)
Theorem createOptimizedSrc_fast_path_iff E s h l o :
  h !! l = Some o ->
  createOptimizedSrc E s (VRef l) h = (Return s, h) <-> o = [].
Proof.
  intros Hl. rewrite (createOptimizedSrc_object E s h l o Hl). cbv zeta.
  destruct o as [|kv o]; [split; [done | intros _; reflexivity]|].
  split; [|discriminate].
  destruct (scoping E); [discriminate|].
  intros Heq. injection Heq as _ Hh.
  pose proof (fresh_lookup_None h) as Hdom.
  rewrite <- (dom_heap_after_line_91 h l (kv :: o) Hl) in Hdom.
  set (f := fresh (dom (heap_after_line_91 h l (kv :: o)))) in *.
  rewrite <- Hh in Hdom. by rewrite lookup_insert_eq in Hdom.
Qed.

Lemma createOptimizedSrc_fast_path_iff_witness :
  Examples.heap_default !! Examples.l0 = Some [] /\
  createOptimizedSrc (module_env TDZ) (VNum 7) (VRef Examples.l0)
    Examples.heap_default = (Return (VNum 7), Examples.heap_default).
Proof.
  split; [reflexivity|].
  apply (createOptimizedSrc_fast_path_iff (module_env TDZ) (VNum 7)
           Examples.heap_default Examples.l0 []); reflexivity.
Defined.

(** X5.  [setImageOptimizer] keeps the last URL only; the new base is the
    prefix of every URL built afterwards, the fast path of line 97 does not
    look at it, and the heap effects of a call do not depend on it. *)
Theorem setImageOptimizer_effect url1 url2 E s h l o :
  h !! l = Some o ->
  setImageOptimizer url2 (setImageOptimizer url1 E) = setImageOptimizer url2 E /\
  (o = [] ->
   createOptimizedSrc (setImageOptimizer url2 E) s (VRef l) h = (Return s, h)) /\
  (o <> [] -> scoping E = Hoisted ->
   (createOptimizedSrc (setImageOptimizer url2 E) s (VRef l) h).1 =
     Return (VStr (url2 +:+ "/?" +:+ qs_stringify E [("img", s)]))) /\
  (createOptimizedSrc (setImageOptimizer url2 E) s (VRef l) h).2 =
    (createOptimizedSrc E s (VRef l) h).2.
Proof.
  intros Hl. split; [done|].
  rewrite (createOptimizedSrc_object (setImageOptimizer url2 E) s h l o Hl).
  rewrite (createOptimizedSrc_object E s h l o Hl). cbv zeta.
  cbn [setImageOptimizer scoping qs_stringify optimizerUrlBase].
  split; [by intros ->|]. split.
  - intros Hne Hsc. destruct o; [done|]. by rewrite Hsc.
  - destruct o; [done|]. by destruct (scoping E).
Qed.

Lemma setImageOptimizer_effect_witness :
  Examples.heap_quality_width !! Examples.l0
    = Some [("quality", VNum 80); ("width", VNum 200)] /\
  (createOptimizedSrc
     (setImageOptimizer LOCAL_IMAGE_OPTIMIZER (module_env Hoisted))
     (VStr "a.jpg") (VRef Examples.l0) Examples.heap_quality_width).1
  = Return (VStr "http://localhost:8090/img/?img=a.jpg").
Proof.
  split; [reflexivity|].
  apply (setImageOptimizer_effect RESPONSIVE_IMAGE_OPTIMIZER
           LOCAL_IMAGE_OPTIMIZER (module_env Hoisted) (VStr "a.jpg")
           Examples.heap_quality_width Examples.l0
           [("quality", VNum 80); ("width", VNum 200)]);
    [reflexivity | discriminate | reflexivity].
Defined.

(** X6.  In the options object of the per-render call the [quality] prop
    always wins over [optimize.quality] (also when the prop is the default
    null), and every other key of [optimize], apart from the [fmt] that line
    91 may write, is copied with its value. *)
Theorem getOptimizedSrc_quality_prop_overrides E p h l o :
  optimize p = VRef l ->
  h !! l = Some o ->
  exists options,
    (getOptimizedSrc E p h).2 !! fresh (dom h) = Some options /\
    get_own options "quality" = quality p /\
    forall k, k <> "quality" -> k <> "fmt" ->
      get_own options k = get_own o k /\ has_own options k = has_own o k.
Proof.
  intros Ho Hl.
  assert (Hown : own_props (optimize p) h = (Return o, h)).
  { rewrite Ho. simpl. unfold deref. by rewrite Hl. }
  rewrite (getOptimizedSrc_fresh_options E p h o Hown).
  exists (after_line_91 (set_prop "quality" (quality p) o)).
  split; [apply createOptimizedSrc_heap_at, lookup_insert_eq|].
  unfold after_line_91. split.
  - destruct (truthy _); rewrite ?get_own_set_prop_ne by discriminate;
      apply get_own_set_prop_eq.
  - intros k Hq Hf. destruct (truthy _);
      rewrite ?has_own_set_prop, ?get_own_set_prop_ne by done;
      rewrite ?bool_decide_eq_false_2 by done; done.
Qed.

Lemma getOptimizedSrc_quality_prop_overrides_witness :
  optimize (Examples.image_props (VStr "a.jpg") VUndefined VUndefined)
    = VRef Examples.l0 /\
  Examples.heap_quality_width !! Examples.l0
    = Some [("quality", VNum 80); ("width", VNum 200)] /\
  exists options,
    (getOptimizedSrc (module_env Hoisted)
       (Examples.image_props (VStr "a.jpg") VUndefined VUndefined)
       Examples.heap_quality_width).2 !! fresh (dom Examples.heap_quality_width)
      = Some options /\
    get_own options "quality" = VNull /\
    get_own options "width" = VNum 200.
Proof.
  split; [reflexivity|]. split; [reflexivity|].
  destruct (getOptimizedSrc_quality_prop_overrides (module_env Hoisted)
              (Examples.image_props (VStr "a.jpg") VUndefined VUndefined)
              Examples.heap_quality_width Examples.l0
              [("quality", VNum 80); ("width", VNum 200)] eq_refl eq_refl)
    as (options & Hheap & Hq & Hk).
  exists options. split; [exact Hheap|]. split; [exact Hq|].
  apply (Hk "width"); discriminate.
Defined.

(** X7.  What a render returns does not depend on the heap, on the [quality]
    prop or on the [optimize] prop: with the other props and the state
    fixed, any two readable [optimize] values give the same completion. *)
Theorem render_ignores_quality_and_optimize E p st h q' opt' h' o o' :
  own_props (optimize p) h = (Return o, h) ->
  own_props opt' h' = (Return o', h') ->
  (render E (with_options q' opt' p) st h').1 = (render E p st h).1.
Proof.
  intros Ho Ho'.
  pose proof (getOptimizedSrc_result E p h o Ho) as Hg.
  pose proof (getOptimizedSrc_result E (with_options q' opt' p) h' o' Ho') as Hg'.
  cbn [with_options src] in Hg'. rewrite <- Hg in Hg'.
  unfold render. cbn [with_options src]. destruct (nullish (src p)); [done|].
  unfold bind.
  destruct (getOptimizedSrc E p h) as [[u|e] h1];
    destruct (getOptimizedSrc E (with_options q' opt' p) h') as [[u'|e'] h1'];
    simpl in Hg'; try discriminate; injection Hg' as ->; [|done].
  cbn [with_options lazy lazyOffset notFoundSrc height width amp fill contain
         className aspectRatio alt imgAttributes].
  unfold ampLayout. cbn [with_options fill contain aspectRatio].
  by destruct (truthy (js_and _ _)).
Qed.

Lemma render_ignores_quality_and_optimize_witness :
  own_props (optimize (Examples.image_props (VStr "a.jpg") VUndefined VUndefined))
    Examples.heap_default = (Return [], Examples.heap_default) /\
  own_props (VRef Examples.l0) Examples.heap_quality_width
    = (Return [("quality", VNum 80); ("width", VNum 200)],
       Examples.heap_quality_width) /\
  (render (module_env Hoisted)
     (with_options (VNum 30) (VRef Examples.l0)
        (Examples.image_props (VStr "a.jpg") VUndefined VUndefined))
     Examples.state_loaded Examples.heap_quality_width).1
  = (render (module_env Hoisted)
       (Examples.image_props (VStr "a.jpg") VUndefined VUndefined)
       Examples.state_loaded Examples.heap_default).1.
Proof.
  split; [reflexivity|]. split; [reflexivity|].
  apply (render_ignores_quality_and_optimize (module_env Hoisted)
           (Examples.image_props (VStr "a.jpg") VUndefined VUndefined)
           Examples.state_loaded Examples.heap_default (VNum 30)
           (VRef Examples.l0) Examples.heap_quality_width []
           [("quality", VNum 80); ("width", VNum 200)]); reflexivity.
Defined.

(** ** More on the load state machine *)

Lemma step_loaded st e :
  loaded (step st e) =
    if truthy (loaded st) then loaded st
    else if shows e then VBool true else loaded st.
Proof.
  destruct e as [[i|]| |v]; simpl.
  - unfold componentDidMount. by destruct (complete i && _), (truthy (loaded st)).
  - by destruct (truthy (loaded st)).
  - by destruct (truthy (loaded st)).
  - unfold lazyLoad, js_and, js_not. cbn [truthy].
    destruct (truthy (loaded st)); simpl; [done|]. by destruct (truthy v).
Qed.

Lemma step_primaryNotFound st e :
  primaryNotFound (step st e) =
    if reports_failure e then VBool true else primaryNotFound st.
Proof.
  destruct e as [[i|]| |v]; simpl; try done.
  - unfold componentDidMount. by destruct (complete i && _).
  - unfold lazyLoad. by destruct (truthy _).
Qed.

Lemma existsb_Permutation {A} (f : A -> bool) (l l' : list A) :
  l ≡ₚ l' -> existsb f l = existsb f l'.
Proof.
  induction 1 as [|x l l' _ IH|x y l|l l' l'' _ IH1 _ IH2]; simpl.
  - done.
  - by rewrite IH.
  - by destruct (f x), (f y).
  - by rewrite IH1.
Qed.

Lemma run_loaded es : forall st,
  loaded (run st es) =
    if truthy (loaded st) then loaded st
    else if existsb shows es then VBool true else loaded st.
Proof.
  induction es as [|e es IH]; intros st; simpl.
  - by destruct (truthy (loaded st)).
  - fold (run (step st e) es). rewrite IH, step_loaded.
    destruct (truthy (loaded st)) eqn:Hl; [by rewrite Hl|].
    destruct (shows e); simpl; [done|]. by rewrite Hl.
Qed.

Lemma run_primaryNotFound es : forall st,
  primaryNotFound (run st es) =
    if existsb reports_failure es then VBool true else primaryNotFound st.
Proof.
  induction es as [|e es IH]; intros st; simpl; [done|].
  fold (run (step st e) es). rewrite IH, step_primaryNotFound.
  by destruct (reports_failure e), (existsb reports_failure es).
Qed.

(** X8.  After any sequence of events the image is loaded exactly when it
    was loaded before or some event was a visibility change to visible;
    error events, mount checks and visibility changes to hidden never load
    it, and the value of a loaded flag is never rewritten. *)
Theorem run_loaded_characterisation (st : State) (es : list Event) :
  truthy (loaded (run st es)) = truthy (loaded st) || existsb shows es /\
  (truthy (loaded st) = true -> loaded (run st es) = loaded st) /\
  (existsb shows es = false -> loaded (run st es) = loaded st).
Proof.
  rewrite run_loaded. destruct (truthy (loaded st)) eqn:Hl.
  - by rewrite Hl.
  - destruct (existsb shows es); simpl; [done|]. by rewrite Hl.
Qed.

Lemma run_loaded_characterisation_witness :
  truthy (loaded (constructor (VBool false) (VBool false))) = true /\
  loaded (run (constructor (VBool false) (VBool false))
            [VisibilityChange (VBool false); ErrorEvent])
  = loaded (constructor (VBool false) (VBool false)).
Proof.
  split; [reflexivity|].
  apply (run_loaded_characterisation (constructor (VBool false) (VBool false))).
  reflexivity.
Defined.

(** X9.  After any sequence of events, [primaryNotFound] is [true] exactly
    when it was before or some event was an error event or a mount check on
    a complete image of natural width 0: a mount check that finds no image,
    an incomplete image or an image with a width, and every visibility
    event, leave it alone. *)
Theorem run_primaryNotFound_characterisation (st : State) (es : list Event) :
  primaryNotFound (run st es) = VBool true <->
  primaryNotFound st = VBool true \/
  exists e, e ∈ es /\ reports_failure e = true.
Proof.
  rewrite run_primaryNotFound.
  destruct (existsb reports_failure es) eqn:Hex.
  - apply existsb_exists in Hex as (e & Hin & He).
    split; [|done]. intros _. right. exists e. by rewrite list_elem_of_In.
  - split; [by left|]. intros [Hp|(e & Hin & He)]; [done|].
    assert (existsb reports_failure es = true) as Habs; [|congruence].
    apply existsb_exists. exists e. by rewrite <- list_elem_of_In.
Qed.

(** X10.  The order in which events arrive does not matter, nor how often
    each arrives: two sequences that are permutations of each other lead to
    the same state, and so does delivering a sequence twice. *)
Theorem run_order_irrelevant (st : State) (es es' : list Event) :
  es ≡ₚ es' ->
  run st es = run st es' /\ run (run st es) es = run st es.
Proof.
  intros Hp.
  assert (Heq : forall a b : State,
             loaded a = loaded b -> primaryNotFound a = primaryNotFound b -> a = b).
  { intros [] []; simpl; congruence. }
  split; apply Heq; rewrite ?run_loaded, ?run_primaryNotFound.
  - by rewrite (existsb_Permutation shows es es' Hp).
  - by rewrite (existsb_Permutation reports_failure es es' Hp).
  - destruct (truthy (loaded st)) eqn:Hl; [by rewrite Hl|].
    destruct (existsb shows es); simpl; [done|]. by rewrite Hl.
  - by destruct (existsb reports_failure es).
Qed.

Lemma run_order_irrelevant_witness :
  [ErrorEvent; VisibilityChange (VBool true); VisibilityChange (VBool false)]
    ≡ₚ [VisibilityChange (VBool false); ErrorEvent; VisibilityChange (VBool true)] /\
  run (constructor (VBool true) (VBool false))
    [ErrorEvent; VisibilityChange (VBool true); VisibilityChange (VBool false)]
  = run (constructor (VBool true) (VBool false))
      [VisibilityChange (VBool false); ErrorEvent; VisibilityChange (VBool true)].
Proof.
  assert (Hp : [ErrorEvent; VisibilityChange (VBool true);
                VisibilityChange (VBool false)]
               ≡ₚ [VisibilityChange (VBool false); ErrorEvent;
                   VisibilityChange (VBool true)]).
  { symmetry.
    apply (Permutation_cons_append [ErrorEvent; VisibilityChange (VBool true)]
             (VisibilityChange (VBool false))). }
  split; [exact Hp|].
  apply (run_order_irrelevant (constructor (VBool true) (VBool false)) _ _ Hp).
Defined.

(** X11.  When error events and mount checks that find an image come only
    from an [<img>] that is in the tree (the only element carrying [onError]
    and [ref], lines 256-261), the state "not loaded, primary not found" is
    never entered: if [primaryNotFound] implies [loaded] before the events,
    it does so after them. *)
Theorem pending_not_found_unreachable p (st : State) (es : list Event) :
  deliverable_run p st es = true ->
  (primaryNotFound st = VBool true -> truthy (loaded st) = true) ->
  primaryNotFound (run st es) = VBool true ->
  truthy (loaded (run st es)) = true.
Proof.
  revert st. induction es as [|e es IH]; intros st Hd Hinv; simpl; [done|].
  simpl in Hd. apply andb_prop in Hd as [He Hd].
  fold (run (step st e) es). apply IH; [done|].
  rewrite step_primaryNotFound, step_loaded. intros Hp.
  destruct (truthy (loaded st)) eqn:Hl; [done|].
  destruct (reports_failure e) eqn:Hf.
  - destruct e as [[i|]| |v]; try discriminate;
      unfold deliverable, img_in_tree in He; rewrite Hl in He;
      by rewrite andb_false_r in He.
  - specialize (Hinv Hp). congruence.
Qed.

Lemma pending_not_found_unreachable_witness :
  deliverable_run (Examples.image_props (VStr "a.jpg") VUndefined VUndefined)
    (constructor (VBool true) (VBool false))
    [MountCheck None; VisibilityChange (VBool true); ErrorEvent] = true /\
  primaryNotFound
    (run (constructor (VBool true) (VBool false))
       [MountCheck None; VisibilityChange (VBool true); ErrorEvent]) = VBool true /\
  truthy (loaded
    (run (constructor (VBool true) (VBool false))
       [MountCheck None; VisibilityChange (VBool true); ErrorEvent])) = true.
Proof.
  split; [reflexivity|]. split; [reflexivity|].
  apply (pending_not_found_unreachable
           (Examples.image_props (VStr "a.jpg") VUndefined VUndefined));
    [reflexivity | discriminate | reflexivity].
Defined.

(** ** More on rendering *)

(** The tree of a completed render, spelled out. *)
Lemma render_tree E p st h el h' :
  render E p st h = (Return (Some el), h') ->
  exists optimized,
    getOptimizedSrc E p h = (Return optimized, h') /\
    let src' :=
      if truthy (js_and (primaryNotFound st) (notFoundSrc p))
      then notFoundSrc p else optimized in
    let a :=
      {| a_src := src'; a_key := src';
         a_class_attribute := if truthy (amp p) then "class" else "className";
         a_fit := negb (nullish (aspectRatio p));
         a_layout := if truthy (amp p) then VStr (ampLayout p) else VNull;
         a_height := height p; a_width := width p; a_alt := alt p;
         a_amp_bind := get_own (imgAttributes p) "amp-bind" |} in
    let c :=
      {| c_className := className p;
         c_root := true;
         c_contain := truthy (js_or (contain p) (aspectRatio p));
         c_fill := truthy (fill p);
         c_children :=
           [ if truthy (aspectRatio p) then PaddingBox (aspectRatio p)
             else Literal (aspectRatio p);
             if truthy (amp p) then AmpImg a
             else if truthy (loaded st) then Img a (imgAttributes p)
             else Literal (loaded st) ] |} in
    el = if truthy (js_and (js_not (amp p)) (lazy p))
         then VisibilitySensor (js_not (loaded st))
                (- lazyOffset p) (- lazyOffset p) c
         else Div c.
Proof.
  unfold render. destruct (nullish (src p)); [discriminate|].
  unfold bind. destruct (getOptimizedSrc E p h) as [[u|e] h1]; [|discriminate].
  intros Hr. exists u. cbv zeta.
  destruct (truthy (js_and (js_not (amp p)) (lazy p)));
    by injection Hr as <- <-.
Qed.

Lemma truthy_not_amp_and_lazy p :
  truthy (js_and (js_not (amp p)) (lazy p)) = negb (truthy (amp p)) && truthy (lazy p).
Proof. unfold js_and, js_not. cbn [truthy]. by destruct (truthy (amp p)). Qed.

(** X12.  The first render of an instance shows its image exactly when the
    instance is not lazy or is in AMP mode: with [lazy] set outside AMP the
    tree holds no image element, only the value of [loaded] in its place. *)
Theorem first_render_shows_image E p h el h' :
  render E p (constructor (lazy p) (amp p)) h = (Return (Some el), h') ->
  (is_Some (image_src el) <-> truthy (lazy p) = false \/ truthy (amp p) = true) /\
  (truthy (lazy p) = true -> truthy (amp p) = false ->
   image_child el = Some (Literal (amp p))).
Proof.
  intros Hr. apply render_tree in Hr as (u & _ & ->). cbv zeta.
  unfold image_src, image_child, constructor, js_or, js_not. cbn [loaded truthy].
  destruct (truthy (js_and _ (lazy p))); cbn [container_of c_children];
    destruct (truthy (amp p)) eqn:Ha, (truthy (lazy p)) eqn:Hl;
    cbn [negb truthy lookup list_lookup]; rewrite ?Ha.
  all: split; [split|]; try (intros; discriminate); try (intros; done).
  all: try (intros _; by eauto).
  all: try (intros [? ?]; discriminate).
  all: try (intros [?|?]; discriminate).
Qed.

Lemma first_render_shows_image_witness :
  exists el h',
    render (module_env Hoisted)
      (Examples.image_props (VStr "a.jpg") VUndefined VUndefined)
      (constructor
         (lazy (Examples.image_props (VStr "a.jpg") VUndefined VUndefined))
         (amp (Examples.image_props (VStr "a.jpg") VUndefined VUndefined)))
      Examples.heap_default
    = (Return (Some el), h') /\
    is_Some (image_src el).
Proof.
  destruct (render (module_env Hoisted)
              (Examples.image_props (VStr "a.jpg") VUndefined VUndefined)
              (constructor
                 (lazy (Examples.image_props (VStr "a.jpg") VUndefined VUndefined))
                 (amp (Examples.image_props (VStr "a.jpg") VUndefined VUndefined)))
              Examples.heap_default)
    as [[[el|]|e] h'] eqn:Hr; [|vm_compute in Hr; discriminate..].
  exists el, h'. split; [reflexivity|].
  apply (first_render_shows_image _ _ _ _ _ Hr). left. reflexivity.
Defined.

(** X13.  Once some event has shown the image, every completed render has
    the image element in the tree, whatever else happened; and while a
    non-AMP instance is not loaded no render has it: the second child of the
    container is the value of [loaded] itself, so no image is requested. *)
Theorem render_image_gated_by_loaded E p st es h el h' :
  render E p (run st es) h = (Return (Some el), h') ->
  (existsb shows es = true -> is_Some (image_src el)) /\
  (truthy (amp p) = false -> truthy (loaded st) = false ->
   existsb shows es = false ->
   image_src el = None /\ image_child el = Some (Literal (loaded st))).
Proof.
  intros Hr. apply render_tree in Hr as (u & _ & ->). cbv zeta.
  rewrite !run_loaded. unfold image_src, image_child.
  split.
  - intros Hs. rewrite Hs.
    assert (Ht : truthy (if truthy (loaded st) then loaded st else VBool true) = true).
    { by destruct (truthy (loaded st)) eqn:Hl. }
    destruct (truthy (js_and _ (lazy p))); cbn [container_of c_children];
      rewrite Ht; by destruct (truthy (amp p)).
  - intros Ha Hl Hs. rewrite Ha, Hl, Hs, Hl.
    by destruct (truthy (js_and _ (lazy p))).
Qed.

Lemma render_image_gated_by_loaded_witness :
  exists el h',
    render (module_env Hoisted)
      (Examples.image_props (VStr "a.jpg") VUndefined VUndefined)
      (run (constructor (VBool true) (VBool false))
         [VisibilityChange (VBool false); VisibilityChange (VBool true)])
      Examples.heap_default
    = (Return (Some el), h') /\
    is_Some (image_src el).
Proof.
  destruct (render (module_env Hoisted)
              (Examples.image_props (VStr "a.jpg") VUndefined VUndefined)
              (run (constructor (VBool true) (VBool false))
                 [VisibilityChange (VBool false); VisibilityChange (VBool true)])
              Examples.heap_default)
    as [[[el|]|e] h'] eqn:Hr; [|vm_compute in Hr; discriminate..].
  exists el, h'. split; [reflexivity|].
  apply (render_image_gated_by_loaded _ _ _ _ _ _ _ Hr). reflexivity.
Defined.

(** X14.  A completed render is wrapped in a [VisibilitySensor] exactly when
    the instance is lazy and not in AMP mode; the sensor is active exactly
    while the image is not loaded, and its top and bottom offsets are both
    minus [lazyOffset]. *)
Theorem render_sensor E p st h el h' :
  render E p st h = (Return (Some el), h') ->
  match el with
  | VisibilitySensor active top bottom _ =>
      truthy (amp p) = false /\ truthy (lazy p) = true /\
      active = VBool (negb (truthy (loaded st))) /\
      top = (- lazyOffset p)%Z /\ bottom = (- lazyOffset p)%Z
  | Div _ => truthy (amp p) = true \/ truthy (lazy p) = false
  end.
Proof.
  intros Hr. apply render_tree in Hr as (u & _ & ->). cbv zeta.
  rewrite truthy_not_amp_and_lazy.
  destruct (truthy (amp p)), (truthy (lazy p)); simpl; auto.
Qed.

Lemma render_sensor_witness :
  exists el h',
    render (module_env Hoisted)
      (Examples.image_props (VStr "a.jpg") VUndefined VUndefined)
      Examples.state_loaded Examples.heap_default
    = (Return (Some el), h') /\
    match el with
    | VisibilitySensor _ _ _ _ => False
    | Div _ => True
    end.
Proof.
  destruct (render (module_env Hoisted)
              (Examples.image_props (VStr "a.jpg") VUndefined VUndefined)
              Examples.state_loaded Examples.heap_default)
    as [[[el|]|e] h'] eqn:Hr; [|vm_compute in Hr; discriminate..].
  exists el, h'. split; [reflexivity|].
  pose proof (render_sensor _ _ _ _ _ _ Hr) as Hs.
  destruct el; [exact I|]. destruct Hs as (_ & Hl & _). discriminate Hl.
Defined.

(** X15.  In AMP mode a completed render always holds an [amp-img], loaded
    or not, and is never wrapped in a sensor.  The element receives
    [assignedAttributes] and nothing else (line 253), so its attributes are
    those: the class goes under the name [class], and the layout is ["fill"]
    exactly when the container carries the contain or the fill class and
    ["intrinsic"] otherwise. *)
Theorem render_amp_layout E p st h el h' :
  render E p st h = (Return (Some el), h') ->
  truthy (amp p) = true ->
  exists a,
    el = Div (container_of el) /\
    image_child el = Some (AmpImg a) /\
    a_class_attribute a = "class" /\
    a_layout a =
      VStr (if c_contain (container_of el) || c_fill (container_of el)
            then "fill" else "intrinsic").
Proof.
  intros Hr Ha. apply render_tree in Hr as (u & _ & ->). cbv zeta.
  rewrite truthy_not_amp_and_lazy. unfold image_child, ampLayout, js_or.
  rewrite Ha; cbn [negb andb].
  eexists. cbn [container_of c_children c_contain c_fill lookup list_lookup].
  split; [done|]. split; [done|]. cbn [a_class_attribute a_layout].
  split; [done|].
  destruct (truthy (contain p)) eqn:Hc; rewrite ?Hc; simpl; [done|].
  destruct (truthy (fill p)) eqn:Hf; rewrite ?Hf;
    destruct (truthy (aspectRatio p)); by rewrite ?orb_true_r.
Qed.

Lemma render_amp_layout_witness :
  truthy (amp (Examples.amp_image_props (VStr "a.jpg") (VBool true))) = true /\
  exists el h' a,
    render (module_env Hoisted)
      (Examples.amp_image_props (VStr "a.jpg") (VBool true))
      (constructor (VBool true) (VBool true)) Examples.heap_default
    = (Return (Some el), h') /\
    image_child el = Some (AmpImg a) /\
    a_layout a = VStr "fill".
Proof.
  split; [reflexivity|].
  destruct (render (module_env Hoisted)
              (Examples.amp_image_props (VStr "a.jpg") (VBool true))
              (constructor (VBool true) (VBool true)) Examples.heap_default)
    as [[[el|]|e] h'] eqn:Hr; [|vm_compute in Hr; discriminate..].
  destruct (render_amp_layout _ _ _ _ _ _ Hr eq_refl)
    as (a & _ & Hchild & _ & Hlay).
  exists el, h', a. split; [reflexivity|]. split; [exact Hchild|].
  rewrite Hlay. vm_compute in Hr. by injection Hr as <- _.
Defined.

(** X16.  The fit class of the image follows [aspectRatio != null] while the
    padding box follows the truthiness of [aspectRatio]: the two disagree
    exactly for an aspect ratio that is given but falsy (0), where the image
    is fitted to a box that is not there and the first child of the
    container is the number itself. *)
Theorem render_aspect_ratio_box E p st h el h' a rest :
  render E p st h = (Return (Some el), h') ->
  image_child el = Some (Img a rest) \/ image_child el = Some (AmpImg a) ->
  a_fit a = negb (nullish (aspectRatio p)) /\
  first_child el =
    Some (if truthy (aspectRatio p) then PaddingBox (aspectRatio p)
          else Literal (aspectRatio p)) /\
  (a_fit a = true /\ first_child el = Some (Literal (aspectRatio p)) <->
   nullish (aspectRatio p) = false /\ truthy (aspectRatio p) = false).
Proof.
  intros Hr. apply render_tree in Hr as (u & _ & ->). cbv zeta.
  unfold image_child, first_child.
  assert (Hgoal : forall a0 : Attributes,
    a_fit a0 = negb (nullish (aspectRatio p)) ->
    a_fit a0 = negb (nullish (aspectRatio p)) /\
    Some (if truthy (aspectRatio p) then PaddingBox (aspectRatio p)
          else Literal (aspectRatio p)) =
    Some (if truthy (aspectRatio p) then PaddingBox (aspectRatio p)
          else Literal (aspectRatio p)) /\
    (a_fit a0 = true /\
     Some (if truthy (aspectRatio p) then PaddingBox (aspectRatio p)
           else Literal (aspectRatio p)) = Some (Literal (aspectRatio p)) <->
     nullish (aspectRatio p) = false /\ truthy (aspectRatio p) = false)).
  { intros a0 ->. split; [done|]. split; [done|].
    destruct (nullish (aspectRatio p)), (truthy (aspectRatio p));
      simpl; split; intros [? ?]; try done. }
  destruct (truthy (js_and _ (lazy p))); cbn [container_of c_children lookup list_lookup];
    (destruct (truthy (amp p)); [|destruct (truthy (loaded st))]);
    intros [Hn|Hn]; try discriminate; injection Hn as <-; try intros <-;
    by apply Hgoal.
Qed.

Lemma render_aspect_ratio_box_witness :
  exists el h' a,
    render (module_env Hoisted)
      (Examples.image_props (VStr "a.jpg") VUndefined (VNum 0))
      Examples.state_loaded Examples.heap_default
    = (Return (Some el), h') /\
    image_child el = Some (Img a []) /\
    a_fit a = true /\
    first_child el = Some (Literal (VNum 0)).
Proof.
  destruct (render (module_env Hoisted)
              (Examples.image_props (VStr "a.jpg") VUndefined (VNum 0))
              Examples.state_loaded Examples.heap_default)
    as [[[el|]|e] h'] eqn:Hr; [|vm_compute in Hr; discriminate..].
  destruct (image_child el) as [[| |a|a rest]|] eqn:Hn;
    try (vm_compute in Hr; injection Hr as <- _; discriminate Hn).
  assert (rest = []) as ->.
  { vm_compute in Hr. injection Hr as <- _. by injection Hn as _ <-. }
  exists el, h', a. split; [reflexivity|]. split; [exact Hn|].
  destruct (render_aspect_ratio_box _ _ _ _ _ _ a [] Hr (or_introl Hn))
    as (Hfit & Hfirst & _).
  split; [exact Hfit | exact Hfirst].
Defined.

(** X17.  Without a [notFoundSrc], a failed primary image changes nothing in
    what is rendered: the render after an error event equals the render
    before it, with the same source and the same key, so the failed source
    stays in place and is not requested again. *)
Theorem render_error_without_fallback E p st h :
  truthy (notFoundSrc p) = false ->
  render E p (step st ErrorEvent) h = render E p st h.
Proof.
  intros Hn. unfold render. destruct (nullish (src p)); [done|].
  unfold bind. destruct (getOptimizedSrc E p h) as [[u|e] h1]; [|done].
  cbn [step handleNotFound loaded primaryNotFound].
  assert (Hs : forall x, truthy (js_and x (notFoundSrc p)) = false).
  { intros x. unfold js_and. destruct (truthy x) eqn:Hx; [done|exact Hx]. }
  rewrite !Hs. reflexivity.
Qed.

Lemma render_error_without_fallback_witness :
  truthy (notFoundSrc (Examples.image_props (VStr "a.jpg") VUndefined VUndefined))
    = false /\
  render (module_env Hoisted)
    (Examples.image_props (VStr "a.jpg") VUndefined VUndefined)
    (step Examples.state_loaded ErrorEvent) Examples.heap_default
  = render (module_env Hoisted)
      (Examples.image_props (VStr "a.jpg") VUndefined VUndefined)
      Examples.state_loaded Examples.heap_default.
Proof.
  split; [reflexivity|].
  apply (render_error_without_fallback (module_env Hoisted)
           (Examples.image_props (VStr "a.jpg") VUndefined VUndefined)
           Examples.state_loaded Examples.heap_default).
  reflexivity.
Defined.
